(** * cartesian_controller_base: the controller orchestrator

    A shallow embedding of
    [cartesian_controller_base/cartesian_controller_base.hpp]:
    the life cycle of [CartesianControllerBase<HardwareInterface>]
    ([init], [starting], [pause], [resume]), the control tick
    ([computeJointControlCmds], [writeJointControlCmds]) and the frame
    utilities ([displayInBaseLink], [displayInTipLink]).

    The collaborators the header only calls (URDF and KDL parsing, the
    forward dynamics solver, the forward kinematics solver, the spatial PID
    controller, the hardware interface) are taken as an interface; a small
    executable instance is given in [Module Demo]. *)

From Stdlib Require Import ZArith List Ascii String Bool Lia Ring PrimFloat.
Import ListNotations.
Local Open Scope string_scope.
Local Open Scope list_scope.

Set Implicit Arguments.

(** ** Scalars

    The functions are written over the operations of the scalar type, the
    way the header is written over [double]. The operations alone say
    nothing about rounding: they are instantiated with binary64, the
    [double] of the program, and with the integers. What holds of the
    program for every scalar type is stated over [Scalar]; what holds only
    when the arithmetic is exact asks for [Exact], the laws of a
    commutative ring, which binary64 does not satisfy. *)

Class Scalar : Type := {
  K : Type;
  k0 : K;
  k1 : K;
  kadd : K -> K -> K;
  kmul : K -> K -> K;
  ksub : K -> K -> K;
  kopp : K -> K
}.

Class Exact (S : Scalar) : Prop := {
  K_ring : ring_theory k0 k1 kadd kmul ksub kopp (@eq K)
}.

Declare Scope scalar_scope.
Delimit Scope scalar_scope with K.
Infix "+" := kadd : scalar_scope.
Infix "*" := kmul : scalar_scope.
Infix "-" := ksub : scalar_scope.
Notation "- x" := (kopp x) : scalar_scope.

#[export] Instance Z_scalar : Scalar := {
  K := Z; k0 := 0%Z; k1 := 1%Z;
  kadd := Z.add; kmul := Z.mul; ksub := Z.sub; kopp := Z.opp
}.

#[export] Instance Z_exact : Exact Z_scalar := { K_ring := Zth }.

(** Binary64 with round to nearest, ties to even: the [double] of the
    program. It is not registered for instance search; the instance is
    named where it is meant. *)
Definition binary64 : Scalar := {|
  K := float; k0 := 0%float; k1 := 1%float;
  kadd := PrimFloat.add; kmul := PrimFloat.mul; ksub := PrimFloat.sub;
  kopp := PrimFloat.opp
|}.

(** ** KDL and Eigen value types *)

Section Geometry.
Context {S : Scalar}.
Local Open Scope scalar_scope.

(** [KDL::Vector]: [double data[3]]. *)
Record Vector : Type := mkVector { vx : K; vy : K; vz : K }.

(** [Vector::operator()(int)]. Indices outside [0..2] do not occur in the
    callers below; they read the last component here. *)
Definition Vector_get (v : Vector) (i : nat) : K :=
  match i with 0 => vx v | 1 => vy v | _ => vz v end.

(** [KDL::Wrench]: a force and a torque. *)
Record Wrench : Type := mkWrench { force : Vector; torque : Vector }.

(** [Wrench::operator()(int i)]: [force(i)] for [i < 3], [torque(i-3)]
    otherwise. *)
Definition Wrench_get (w : Wrench) (i : nat) : K :=
  if Nat.ltb i 3 then Vector_get (force w) i else Vector_get (torque w) (i - 3).

(** [KDL::Rotation]: [double data[9]], row major. *)
Record Rotation : Type := mkRotation {
  d0 : K; d1 : K; d2 : K;
  d3 : K; d4 : K; d5 : K;
  d6 : K; d7 : K; d8 : K
}.

Definition Rotation_Identity : Rotation :=
  mkRotation k1 k0 k0  k0 k1 k0  k0 k0 k1.

(** [Rotation::operator*(const Vector&)]. *)
Definition Rotation_mul_Vector (r : Rotation) (v : Vector) : Vector :=
  mkVector
    (d0 r * vx v + d1 r * vy v + d2 r * vz v)
    (d3 r * vx v + d4 r * vy v + d5 r * vz v)
    (d6 r * vx v + d7 r * vy v + d8 r * vz v).

(** [Rotation::operator*(const Wrench&)]: both parts are rotated. *)
Definition Rotation_mul_Wrench (r : Rotation) (w : Wrench) : Wrench :=
  mkWrench (Rotation_mul_Vector r (force w)) (Rotation_mul_Vector r (torque w)).

(** [Rotation::Inverse()]: KDL swaps the off-diagonal entries, that is, it
    returns the transpose. *)
Definition Rotation_Inverse (r : Rotation) : Rotation :=
  mkRotation (d0 r) (d3 r) (d6 r)
             (d1 r) (d4 r) (d7 r)
             (d2 r) (d5 r) (d8 r).

(** [Rotation::operator*(const Rotation&)]. *)
Definition Rotation_mul (a b : Rotation) : Rotation :=
  mkRotation
    (d0 a * d0 b + d1 a * d3 b + d2 a * d6 b)
    (d0 a * d1 b + d1 a * d4 b + d2 a * d7 b)
    (d0 a * d2 b + d1 a * d5 b + d2 a * d8 b)
    (d3 a * d0 b + d4 a * d3 b + d5 a * d6 b)
    (d3 a * d1 b + d4 a * d4 b + d5 a * d7 b)
    (d3 a * d2 b + d4 a * d5 b + d5 a * d8 b)
    (d6 a * d0 b + d7 a * d3 b + d8 a * d6 b)
    (d6 a * d1 b + d7 a * d4 b + d8 a * d7 b)
    (d6 a * d2 b + d7 a * d5 b + d8 a * d8 b).

(** The class invariant of [KDL::Rotation]: the matrix is orthonormal, so
    that [Inverse()] (the transpose) undoes it. *)
Definition orthonormal (r : Rotation) : Prop :=
  Rotation_mul (Rotation_Inverse r) r = Rotation_Identity.

(** [KDL::Frame]: origin [p] and orientation [M]; the default frame is the
    identity. *)
Record Frame : Type := mkFrame { M : Rotation; p : Vector }.

Definition Frame_Identity : Frame :=
  mkFrame Rotation_Identity (mkVector k0 k0 k0).

(** [ctrl::Vector6D], an [Eigen::Matrix<double,6,1>]. *)
Record Vector6D : Type := mkVector6D {
  c0 : K; c1 : K; c2 : K; c3 : K; c4 : K; c5 : K
}.

Definition Vector6D_get (v : Vector6D) (i : nat) : K :=
  match i with
  | 0 => c0 v | 1 => c1 v | 2 => c2 v | 3 => c3 v | 4 => c4 v | _ => c5 v
  end.

(** The loop [for (i = 0; i < 6; ++i) wrench_kdl(i) = vector[i];]. *)
Definition Wrench_of_Vector6D (v : Vector6D) : Wrench :=
  mkWrench
    (mkVector (Vector6D_get v 0) (Vector6D_get v 1) (Vector6D_get v 2))
    (mkVector (Vector6D_get v 3) (Vector6D_get v 4) (Vector6D_get v 5)).

(** The loop [for (i = 0; i < 6; ++i) out[i] = wrench_kdl(i);]. *)
Definition Vector6D_of_Wrench (w : Wrench) : Vector6D :=
  mkVector6D (Wrench_get w 0) (Wrench_get w 1) (Wrench_get w 2)
             (Wrench_get w 3) (Wrench_get w 4) (Wrench_get w 5).

(** [ctrl::Matrix3D], by coefficient [(row, column)]. *)
Record Matrix3D : Type := mkMatrix3D {
  m00 : K; m01 : K; m02 : K;
  m10 : K; m11 : K; m12 : K;
  m20 : K; m21 : K; m22 : K
}.

Definition Matrix3D_get (a : Matrix3D) (i j : nat) : K :=
  match i, j with
  | 0, 0 => m00 a | 0, 1 => m01 a | 0, _ => m02 a
  | 1, 0 => m10 a | 1, 1 => m11 a | 1, _ => m12 a
  | _, 0 => m20 a | _, 1 => m21 a | _, _ => m22 a
  end.

(** Eigen's comma initialiser [R << a, b, c, ...] fills row by row. *)
Definition Matrix3D_of_Rotation (r : Rotation) : Matrix3D :=
  mkMatrix3D (d0 r) (d1 r) (d2 r)
             (d3 r) (d4 r) (d5 r)
             (d6 r) (d7 r) (d8 r).

Definition Matrix3D_transpose (a : Matrix3D) : Matrix3D :=
  mkMatrix3D (m00 a) (m10 a) (m20 a)
             (m01 a) (m11 a) (m21 a)
             (m02 a) (m12 a) (m22 a).

Definition Matrix3D_mul (a b : Matrix3D) : Matrix3D :=
  mkMatrix3D
    (m00 a * m00 b + m01 a * m10 b + m02 a * m20 b)
    (m00 a * m01 b + m01 a * m11 b + m02 a * m21 b)
    (m00 a * m02 b + m01 a * m12 b + m02 a * m22 b)
    (m10 a * m00 b + m11 a * m10 b + m12 a * m20 b)
    (m10 a * m01 b + m11 a * m11 b + m12 a * m21 b)
    (m10 a * m02 b + m11 a * m12 b + m12 a * m22 b)
    (m20 a * m00 b + m21 a * m10 b + m22 a * m20 b)
    (m20 a * m01 b + m21 a * m11 b + m22 a * m21 b)
    (m20 a * m02 b + m21 a * m12 b + m22 a * m22 b).

(** [ctrl::Matrix6D], an [Eigen::Matrix<double,6,6>], as its coefficient
    function on [0..5] x [0..5]. *)
Definition Matrix6D : Type := nat -> nat -> K.

Definition Matrix6D_Zero : Matrix6D := fun _ _ => k0.

(** [topLeftCorner<3,3>()] and [bottomRightCorner<3,3>()], read. *)
Definition topLeftCorner (t : Matrix6D) : Matrix3D :=
  mkMatrix3D (t 0 0) (t 0 1) (t 0 2)
             (t 1 0) (t 1 1) (t 1 2)
             (t 2 0) (t 2 1) (t 2 2).

Definition bottomRightCorner (t : Matrix6D) : Matrix3D :=
  mkMatrix3D (t 3 3) (t 3 4) (t 3 5)
             (t 4 3) (t 4 4) (t 4 5)
             (t 5 3) (t 5 4) (t 5 5).

(** [topLeftCorner<3,3>() = b] and [bottomRightCorner<3,3>() = b],
    assigned: the coefficients of the block are overwritten, the others
    are kept. *)
Definition set_topLeftCorner (t : Matrix6D) (b : Matrix3D) : Matrix6D :=
  fun i j =>
    if Nat.ltb i 3 && Nat.ltb j 3 then Matrix3D_get b i j else t i j.

Definition set_bottomRightCorner (t : Matrix6D) (b : Matrix3D) : Matrix6D :=
  fun i j =>
    if Nat.leb 3 i && Nat.ltb i 6 && Nat.leb 3 j && Nat.ltb j 6
    then Matrix3D_get b (i - 3) (j - 3) else t i j.

End Geometry.

Arguments Matrix6D {S}.

(** ** ROS messages, parameters and the hardware layer *)

(** [ros::Duration] and [ros::Time]: seconds and nanoseconds. *)
Record Duration : Type := mkDuration { sec : Z; nsec : Z }.

Definition Time : Type := Duration.

(** The values of the parameter server that [init] asks for. *)
Inductive XmlRpcValue : Type :=
| TypeString (s : string)
| TypeStringArray (l : list string)
| TypeOther.

(** [ros::NodeHandle]: its namespace and the parameter server behind it. *)
Record NodeHandle : Type := mkNodeHandle {
  getNamespace : string;
  server : string -> option XmlRpcValue
}.

(** Name resolution: a key with a leading slash is global, any other key
    lives in the namespace of the handle. *)
Definition resolveName (nh : NodeHandle) (key : string) : string :=
  match key with
  | String "/"%char _ => key
  | _ => getNamespace nh ++ "/" ++ key
  end.

(** [nh.getParam(key, std::string&)]: [None] stands for the result
    [false], in which case the output variable is left as it was. *)
Definition getParam_string (nh : NodeHandle) (key : string) : option string :=
  match server nh (resolveName nh key) with
  | Some (TypeString s) => Some s
  | _ => None
  end.

(** [nh.getParam(key, std::vector<std::string>&)]. *)
Definition getParam_strings (nh : NodeHandle) (key : string) : option (list string) :=
  match server nh (resolveName nh key) with
  | Some (TypeStringArray l) => Some l
  | _ => None
  end.

(** The template argument of the controller. *)
Inductive HardwareInterface : Type :=
| PositionJointInterface
| VelocityJointInterface.

(** [hardware_interface::JointHandle]: it points into the hardware's
    storage of the joint of that name. *)
Record JointHandle : Type := mkJointHandle { getName : string }.

(** How [init] can leave: by [return], by an exception, or through
    undefined behaviour (a null pointer or an index out of range). *)
Inductive Outcome : Type :=
| Returned (b : bool)
| Thrown (what : string)
| Undefined.

Section Hardware.
Context {S : Scalar}.

(** What the hardware measures for one joint. *)
Record JointState : Type := mkJointState {
  getPosition : K;
  getVelocity : K;
  getEffort : K
}.

(** The robot hardware: the registered joints with their measured state,
    and every command written through a handle, oldest first. *)
Record RobotHW : Type := mkRobotHW {
  hw_joints : string -> option JointState;
  hw_commands : list (string * K)
}.

(** [hw->getHandle(name)]: throws for a name that is not registered
    ([None]). *)
Definition getHandle (hw : RobotHW) (name : string) : option JointHandle :=
  match hw_joints hw name with
  | Some _ => Some (mkJointHandle name)
  | None => None
  end.

(** [handle.setCommand(v)]. *)
Definition setCommand (h : JointHandle) (v : K) (hw : RobotHW) : RobotHW :=
  mkRobotHW (hw_joints hw) (hw_commands hw ++ [(getName h, v)]).

(** [trajectory_msgs::JointTrajectoryPoint]. *)
Record JointTrajectoryPoint : Type := mkJointTrajectoryPoint {
  positions : list K;
  velocities : list K;
  accelerations : list K;
  effort : list K;
  time_from_start : Duration
}.

(** [urdf::JointLimits] and the part of [urdf::Joint] that [init] reads;
    [limits] is a shared pointer and may be null. *)
Record JointLimits : Type := mkJointLimits { lower : K; upper : K }.

Record UrdfJoint : Type := mkUrdfJoint {
  joint_name : string;
  limits : option JointLimits
}.

End Hardware.

(** ** The collaborators of the controller

    Classes of the package and of its libraries that the header calls and
    does not define. A result [option] stands for a [bool] (or an error
    code) together with the output argument. *)

Class Collaborators {S : Scalar} : Type := {
  UrdfModel : Type;
  KdlTree : Type;
  KdlChain : Type;
  ForwardDynamicsSolver : Type;
  TreeFkSolverPos_recursive : Type;
  SpatialPIDController : Type;
  (* urdf::Model *)
  initString : string -> option UrdfModel;
  getJoint : UrdfModel -> string -> option UrdfJoint;
  (* kdl_parser and KDL::Tree *)
  treeFromUrdfModel : UrdfModel -> option KdlTree;
  getChain : KdlTree -> string -> string -> option KdlChain;
  (* ForwardDynamicsSolver *)
  fds_new : ForwardDynamicsSolver;
  fds_init : ForwardDynamicsSolver -> KdlChain -> list K -> list K ->
             ForwardDynamicsSolver;
  setStartState : ForwardDynamicsSolver -> (string -> option JointState) ->
                  list JointHandle -> ForwardDynamicsSolver;
  getJointControlCmds : ForwardDynamicsSolver -> Duration -> Vector6D ->
                        ForwardDynamicsSolver * JointTrajectoryPoint;
  getPositions : ForwardDynamicsSolver -> list K;
  (* KDL::TreeFkSolverPos_recursive over the tree that holds the chain *)
  fk_new : KdlChain -> TreeFkSolverPos_recursive;
  JntToCart : TreeFkSolverPos_recursive -> list K -> string -> option Frame;
  (* SpatialPIDController *)
  spatial_new : SpatialPIDController;
  spatial_init : SpatialPIDController -> NodeHandle -> SpatialPIDController;
  spatial_call : SpatialPIDController -> Vector6D -> Duration ->
                 SpatialPIDController * Vector6D
}.

(** ** The controller *)

Section Controller.
Context {S : Scalar} {C : Collaborators}.

(** The members of [CartesianControllerBase<HardwareInterface>] that the
    header uses. The solver of the forward kinematics sits behind a shared
    pointer, which is null until [init] has run. *)
Record CartesianControllerBase (hwi : HardwareInterface) : Type := mkController {
  m_already_initialized : bool;
  m_paused : bool;
  m_robot_base_link : string;
  m_end_effector_link : string;
  m_joint_names : list string;
  m_joint_handles : list JointHandle;
  m_forward_dynamics_solver : ForwardDynamicsSolver;
  m_forward_kinematics_solver : option TreeFkSolverPos_recursive;
  m_spatial_controller : SpatialPIDController;
  m_cartesian_input : Vector6D;
  m_simulated_joint_motion : JointTrajectoryPoint
}.

Section Members.
Variable hwi : HardwareInterface.
#[local] Abbreviation Controller := (CartesianControllerBase hwi).

Definition set_already_initialized (c : Controller) (b : bool) : Controller :=
  mkController hwi b (m_paused c) (m_robot_base_link c) (m_end_effector_link c)
    (m_joint_names c) (m_joint_handles c) (m_forward_dynamics_solver c)
    (m_forward_kinematics_solver c) (m_spatial_controller c)
    (m_cartesian_input c) (m_simulated_joint_motion c).

Definition set_paused (c : Controller) (b : bool) : Controller :=
  mkController hwi (m_already_initialized c) b (m_robot_base_link c)
    (m_end_effector_link c) (m_joint_names c) (m_joint_handles c)
    (m_forward_dynamics_solver c) (m_forward_kinematics_solver c)
    (m_spatial_controller c) (m_cartesian_input c) (m_simulated_joint_motion c).

Definition set_robot_base_link (c : Controller) (s : string) : Controller :=
  mkController hwi (m_already_initialized c) (m_paused c) s
    (m_end_effector_link c) (m_joint_names c) (m_joint_handles c)
    (m_forward_dynamics_solver c) (m_forward_kinematics_solver c)
    (m_spatial_controller c) (m_cartesian_input c) (m_simulated_joint_motion c).

Definition set_end_effector_link (c : Controller) (s : string) : Controller :=
  mkController hwi (m_already_initialized c) (m_paused c) (m_robot_base_link c)
    s (m_joint_names c) (m_joint_handles c)
    (m_forward_dynamics_solver c) (m_forward_kinematics_solver c)
    (m_spatial_controller c) (m_cartesian_input c) (m_simulated_joint_motion c).

Definition set_joint_names (c : Controller) (l : list string) : Controller :=
  mkController hwi (m_already_initialized c) (m_paused c) (m_robot_base_link c)
    (m_end_effector_link c) l (m_joint_handles c)
    (m_forward_dynamics_solver c) (m_forward_kinematics_solver c)
    (m_spatial_controller c) (m_cartesian_input c) (m_simulated_joint_motion c).

Definition set_joint_handles (c : Controller) (l : list JointHandle) : Controller :=
  mkController hwi (m_already_initialized c) (m_paused c) (m_robot_base_link c)
    (m_end_effector_link c) (m_joint_names c) l
    (m_forward_dynamics_solver c) (m_forward_kinematics_solver c)
    (m_spatial_controller c) (m_cartesian_input c) (m_simulated_joint_motion c).

Definition set_forward_dynamics_solver (c : Controller)
    (f : ForwardDynamicsSolver) : Controller :=
  mkController hwi (m_already_initialized c) (m_paused c) (m_robot_base_link c)
    (m_end_effector_link c) (m_joint_names c) (m_joint_handles c)
    f (m_forward_kinematics_solver c)
    (m_spatial_controller c) (m_cartesian_input c) (m_simulated_joint_motion c).

Definition set_forward_kinematics_solver (c : Controller)
    (f : option TreeFkSolverPos_recursive) : Controller :=
  mkController hwi (m_already_initialized c) (m_paused c) (m_robot_base_link c)
    (m_end_effector_link c) (m_joint_names c) (m_joint_handles c)
    (m_forward_dynamics_solver c) f
    (m_spatial_controller c) (m_cartesian_input c) (m_simulated_joint_motion c).

Definition set_spatial_controller (c : Controller)
    (s : SpatialPIDController) : Controller :=
  mkController hwi (m_already_initialized c) (m_paused c) (m_robot_base_link c)
    (m_end_effector_link c) (m_joint_names c) (m_joint_handles c)
    (m_forward_dynamics_solver c) (m_forward_kinematics_solver c)
    s (m_cartesian_input c) (m_simulated_joint_motion c).

Definition set_cartesian_input (c : Controller) (v : Vector6D) : Controller :=
  mkController hwi (m_already_initialized c) (m_paused c) (m_robot_base_link c)
    (m_end_effector_link c) (m_joint_names c) (m_joint_handles c)
    (m_forward_dynamics_solver c) (m_forward_kinematics_solver c)
    (m_spatial_controller c) v (m_simulated_joint_motion c).

Definition set_simulated_joint_motion (c : Controller)
    (m : JointTrajectoryPoint) : Controller :=
  mkController hwi (m_already_initialized c) (m_paused c) (m_robot_base_link c)
    (m_end_effector_link c) (m_joint_names c) (m_joint_handles c)
    (m_forward_dynamics_solver c) (m_forward_kinematics_solver c)
    (m_spatial_controller c) (m_cartesian_input c) m.

(** The constructor initialises [m_already_initialized] only. The flag
    [m_paused] and the fixed-size vector [m_cartesian_input] start with
    whatever their storage holds, which the arguments stand for. *)
Definition CartesianControllerBase_new (paused0 : bool) (input0 : Vector6D)
    : Controller :=
  mkController hwi false paused0 "" "" [] [] fds_new None spatial_new input0
    (mkJointTrajectoryPoint [] [] [] [] (mkDuration 0 0)).

(** *** [init] *)

Definition error_tree : string := "Failed to parse KDL tree from urdf model".

Definition error_chain : string :=
  "Failed to parse robot chain from urdf model. " ++
  "Are you sure that both your 'robot_base_link' and 'end_effector_link' exist?".

Definition error_joints (nh : NodeHandle) : string :=
  "Failed to load " ++ getNamespace nh ++ "/joints" ++ " from parameter server".

Definition error_joint (name : string) : string :=
  "Joint " ++ name ++ " does not appear in /robot_description".

(** The exception of [hw->getHandle]; its text is the hardware
    interface's. *)
Definition error_handle (name : string) : string :=
  "Could not find resource '" ++ name ++ "'".

(** The loop that parses the joint limits. It stops at the first name the
    model does not know (an exception), or at the first joint without
    limits (a null pointer is dereferenced). *)
Inductive LimitsResult : Type :=
| LimitsParsed (upper_pos_limits lower_pos_limits : list K)
| LimitsUnknownJoint (name : string)
| LimitsNullPointer.

Fixpoint parse_limits (robot_model : UrdfModel) (names : list string)
    : LimitsResult :=
  match names with
  | [] => LimitsParsed [] []
  | name :: rest =>
    match getJoint robot_model name with
    | None => LimitsUnknownJoint name
    | Some j =>
      match limits j with
      | None => LimitsNullPointer
      | Some l =>
        match parse_limits robot_model rest with
        | LimitsParsed us ls => LimitsParsed (upper l :: us) (lower l :: ls)
        | stop => stop
        end
      end
    end
  end.

(** The loop that fetches the joint handles: each one is pushed to the
    back of [m_joint_handles]; the handles pushed before an exception
    stay. The second component names the joint [getHandle] threw for. *)
Fixpoint get_handles (hw : RobotHW) (names : list string)
    (handles : list JointHandle) : list JointHandle * option string :=
  match names with
  | [] => (handles, None)
  | name :: rest =>
    match getHandle hw name with
    | None => (handles, Some name)
    | Some h => get_handles hw rest (handles ++ [h])
    end
  end.

Definition init (c : Controller) (hw : RobotHW) (nh : NodeHandle)
    : Controller * Outcome :=
  if m_already_initialized c then (c, Returned true) else
  (* Get controller specific configuration *)
  match getParam_string nh "/robot_description" with
  | None => (c, Returned false)
  | Some robot_description =>
  match getParam_string nh "robot_base_link" with
  | None => (c, Returned false)
  | Some base =>
  let c := set_robot_base_link c base in
  match getParam_string nh "end_effector_link" with
  | None => (c, Returned false)
  | Some tip =>
  let c := set_end_effector_link c tip in
  (* Build a kinematic chain of the robot *)
  match initString robot_description with
  | None => (c, Returned false)
  | Some robot_model =>
  match treeFromUrdfModel robot_model with
  | None => (c, Thrown error_tree)
  | Some robot_tree =>
  match getChain robot_tree (m_robot_base_link c) (m_end_effector_link c) with
  | None => (c, Thrown error_chain)
  | Some robot_chain =>
  (* Get names of controllable joints from the parameter server *)
  match getParam_strings nh "joints" with
  | None => (c, Thrown (error_joints nh))
  | Some names =>
  let c := set_joint_names c names in
  (* Parse joint limits *)
  match parse_limits robot_model (m_joint_names c) with
  | LimitsUnknownJoint name => (c, Thrown (error_joint name))
  | LimitsNullPointer => (c, Undefined)
  | LimitsParsed upper_pos_limits lower_pos_limits =>
  (* Get the joint handles to use in the control loop *)
  match get_handles hw (m_joint_names c) (m_joint_handles c) with
  | (handles, Some name) => (set_joint_handles c handles, Thrown (error_handle name))
  | (handles, None) =>
  let c := set_joint_handles c handles in
  (* Initialize solvers *)
  let c := set_forward_dynamics_solver c
             (fds_init (m_forward_dynamics_solver c) robot_chain
                       upper_pos_limits lower_pos_limits) in
  let c := set_forward_kinematics_solver c (Some (fk_new robot_chain)) in
  (* Initialize Cartesian pid controllers *)
  let c := set_spatial_controller c (spatial_init (m_spatial_controller c) nh) in
  let c := set_already_initialized c true in
  (* Start with normal ROS control behavior *)
  let c := set_paused c false in
  (c, Returned true)
  end end end end end end end end end.

(** *** [starting], [pause], [resume] *)

Definition starting (c : Controller) (hw : RobotHW) (time : Time) : Controller :=
  (* Copy joint state to internal simulation *)
  set_forward_dynamics_solver c
    (setStartState (m_forward_dynamics_solver c) (hw_joints hw)
                   (m_joint_handles c)).

Definition pause (c : Controller) (time : Time) : Controller :=
  set_paused c true.

Definition resume (c : Controller) (time : Time) : Controller * bool :=
  (set_paused c false, true).

(** *** The control tick *)

Definition computeJointControlCmds (c : Controller) (error : Vector6D)
    (period : Duration) : Controller :=
  if m_paused c then c else
  (* PID controlled system input *)
  let (sc, input) := spatial_call (m_spatial_controller c) error period in
  let c := set_cartesian_input (set_spatial_controller c sc) input in
  let (fds, motion) :=
    getJointControlCmds (m_forward_dynamics_solver c) period
                        (m_cartesian_input c) in
  set_simulated_joint_motion (set_forward_dynamics_solver c fds) motion.

(** The loop [for (i = 0; i < m_joint_handles.size(); ++i)
    m_joint_handles[i].setCommand(values[i]);], entered at index [i] with
    the handles from [i] on. [values[i]] on a [std::vector] is undefined
    behaviour beyond its size ([None]). *)
Fixpoint write_commands (values : list K) (handles : list JointHandle)
    (i : nat) (hw : RobotHW) : option RobotHW :=
  match handles with
  | [] => Some hw
  | h :: rest =>
    match nth_error values i with
    | None => None
    | Some v => write_commands values rest (Datatypes.S i) (setCommand h v hw)
    end
  end.

(** The two explicit specialisations of [writeJointControlCmds]. *)
Definition writeJointControlCmds (c : Controller) (hw : RobotHW)
    : option RobotHW :=
  match hwi with
  | PositionJointInterface =>
    (* Don't update position commands when paused. *)
    if m_paused c then Some hw else
    (* Take position commands *)
    write_commands (positions (m_simulated_joint_motion c))
                   (m_joint_handles c) 0 hw
  | VelocityJointInterface =>
    (* Don't update velocity commands when paused. *)
    if m_paused c then Some hw else
    (* Take velocity commands *)
    write_commands (velocities (m_simulated_joint_motion c))
                   (m_joint_handles c) 0 hw
  end.

(** One tick of a derived controller: compute, then write. *)
Definition tick (c : Controller) (hw : RobotHW) (error : Vector6D)
    (period : Duration) : Controller * option RobotHW :=
  let c := computeJointControlCmds c error period in
  (c, writeJointControlCmds c hw).

(** *** Frame utilities

    [JntToCart] leaves its output frame, default constructed as the
    identity, untouched when it fails, and its error code is not looked
    at. Calling through the null solver pointer is undefined ([None]). *)

Definition lookup_transform (fk : TreeFkSolverPos_recursive) (c : Controller)
    (segment : string) : Frame :=
  match JntToCart fk (getPositions (m_forward_dynamics_solver c)) segment with
  | Some f => f
  | None => Frame_Identity
  end.

Definition displayInBaseLink (c : Controller) (vector : Vector6D)
    (from : string) : option Vector6D :=
  match m_forward_kinematics_solver c with
  | None => None
  | Some fk =>
    (* Adjust format *)
    let wrench_kdl := Wrench_of_Vector6D vector in
    let transform_kdl := lookup_transform fk c from in
    (* Rotate into new reference frame *)
    let wrench_kdl := Rotation_mul_Wrench (M transform_kdl) wrench_kdl in
    (* Reassign *)
    Some (Vector6D_of_Wrench wrench_kdl)
  end.

Definition displayInBaseLink_tensor (c : Controller) (tensor : Matrix6D)
    (from : string) : option Matrix6D :=
  match m_forward_kinematics_solver c with
  | None => None
  | Some fk =>
    (* Get rotation to base *)
    let R_kdl := lookup_transform fk c from in
    (* Adjust format *)
    let R := Matrix3D_of_Rotation (M R_kdl) in
    (* Treat diagonal blocks as individual 2nd rank tensors. *)
    let tmp := Matrix6D_Zero in
    let tmp := set_topLeftCorner tmp
      (Matrix3D_mul (Matrix3D_mul R (topLeftCorner tensor))
                    (Matrix3D_transpose R)) in
    let tmp := set_bottomRightCorner tmp
      (Matrix3D_mul (Matrix3D_mul R (bottomRightCorner tensor))
                    (Matrix3D_transpose R)) in
    Some tmp
  end.

Definition displayInTipLink (c : Controller) (vector : Vector6D)
    (to : string) : option Vector6D :=
  match m_forward_kinematics_solver c with
  | None => None
  | Some fk =>
    (* Adjust format *)
    let wrench_kdl := Wrench_of_Vector6D vector in
    let transform_kdl := lookup_transform fk c to in
    (* Rotate into new reference frame *)
    let wrench_kdl :=
      Rotation_mul_Wrench (Rotation_Inverse (M transform_kdl)) wrench_kdl in
    (* Reassign *)
    Some (Vector6D_of_Wrench wrench_kdl)
  end.

End Members.
End Controller.

(** ** Sequences of calls

    A host drives the controller through its functions one call at a time:
    [init], [starting], [pause], [resume] and the tick of a derived
    controller. A call sequence stops ([None]) at undefined behaviour; a
    call of [init] that throws leaves the controller to the host as the
    exception found it. *)

Section Calls.
Context {S : Scalar} {C : Collaborators}.
Variable hwi : HardwareInterface.

Inductive Call : Type :=
| CallInit (nh : NodeHandle)
| CallStarting (time : Time)
| CallPause (time : Time)
| CallResume (time : Time)
| CallTick (error : Vector6D) (period : Duration).

Definition step (c : CartesianControllerBase hwi) (hw : RobotHW) (call : Call)
    : option (CartesianControllerBase hwi * RobotHW) :=
  match call with
  | CallInit nh =>
    match init c hw nh with
    | (_, Undefined) => None
    | (c', _) => Some (c', hw)
    end
  | CallStarting time => Some (starting c hw time, hw)
  | CallPause time => Some (pause c time, hw)
  | CallResume time => Some (fst (resume c time), hw)
  | CallTick error period =>
    match tick c hw error period with
    | (c', Some hw') => Some (c', hw')
    | (_, None) => None
    end
  end.

Fixpoint run (c : CartesianControllerBase hwi) (hw : RobotHW)
    (calls : list Call) : option (CartesianControllerBase hwi * RobotHW) :=
  match calls with
  | [] => Some (c, hw)
  | call :: rest =>
    match step c hw call with
    | Some (c', hw') => run c' hw' rest
    | None => None
    end
  end.

(** The calls that can clear [m_paused]. *)
Definition unpauses (call : Call) : bool :=
  match call with
  | CallInit _ | CallResume _ => true
  | _ => false
  end.

Definition is_tick (call : Call) : bool :=
  match call with
  | CallTick _ _ => true
  | _ => false
  end.

End Calls.

Section Products.
Context {S : Scalar}.
Local Open Scope scalar_scope.

(** KDL's [dot(const Vector&, const Vector&)]. *)
Definition dot (a b : Vector) : K :=
  vx a * vx b + vy a * vy b + vz a * vz b.

(** The linear and the angular part of a 6-vector, as the format
    conversion of the frame utilities splits it. *)
Definition linear_part (x : Vector6D) : Vector := force (Wrench_of_Vector6D x).

Definition angular_part (x : Vector6D) : Vector := torque (Wrench_of_Vector6D x).

(** A joint that the model knows, with limits. *)
Definition has_limits {C : Collaborators} (robot_model : UrdfModel)
    (name : string) : Prop :=
  exists j l, getJoint robot_model name = Some j /\ limits j = Some l.

End Products.

(** ** An executable instance

    A planar arm over the integers: two revolute joints about the z axis,
    positions counted in quarter turns, so that every rotation has integer
    entries. *)

Module Demo.

Definition joint (name : string) : UrdfJoint :=
  mkUrdfJoint name (Some (mkJointLimits (-2)%Z 2%Z)).

Definition arm : list (@UrdfJoint Z_scalar) := [joint "joint1"; joint "joint2"].

Definition parse (description : string) : option (list (@UrdfJoint Z_scalar)) :=
  if String.eqb description "arm" then Some arm else None.

Definition find_joint (model : list (@UrdfJoint Z_scalar)) (name : string)
    : option UrdfJoint :=
  find (fun j => String.eqb (joint_name j) name) model.

Definition chain_between (tree : list (@UrdfJoint Z_scalar)) (base tip : string)
    : option (list string) :=
  if String.eqb base "base_link" && String.eqb tip "tool0"
  then Some (map (@joint_name _) tree) else None.

(** The simulated joint state and the limits. *)
Record Simulation : Type := mkSimulation {
  sim_positions : list Z;
  sim_velocities : list Z;
  sim_upper : list Z;
  sim_lower : list Z
}.

Definition measured (joints : string -> option (@JointState Z_scalar))
    (f : @JointState Z_scalar -> Z) (h : JointHandle) : Z :=
  match joints (getName h) with
  | Some js => f js
  | None => 0%Z
  end.

Definition clamp (lo hi x : Z) : Z := Z.max lo (Z.min hi x).

Fixpoint integrate (q up lo : list Z) (step : Z) : list Z :=
  match q, up, lo with
  | x :: q', u :: up', l :: lo' => clamp l u (x + step) :: integrate q' up' lo' step
  | _, _, _ => []
  end.

(** Every joint turns with the angular velocity about z. *)
Definition simulate (s : Simulation) (period : Duration) (v : @Vector6D Z_scalar)
    : Simulation * @JointTrajectoryPoint Z_scalar :=
  let q := integrate (sim_positions s) (sim_upper s) (sim_lower s)
                     (c5 v * sec period)%Z in
  let qd := map (fun _ => c5 v) q in
  (mkSimulation q qd (sim_upper s) (sim_lower s),
   mkJointTrajectoryPoint q qd [] [] period).

(** A rotation about z by [n] quarter turns. *)
Definition quarter_turns (n : Z) : @Rotation Z_scalar :=
  match (n mod 4)%Z with
  | 0%Z => mkRotation 1 0 0  0 1 0  0 0 1
  | 1%Z => mkRotation 0 (-1) 0  1 0 0  0 0 1
  | 2%Z => mkRotation (-1) 0 0  0 (-1) 0  0 0 1
  | _ => mkRotation 0 1 0  (-1) 0 0  0 0 1
  end%Z.

(** The links are named after the joints that move them; the tip of the
    arm has turned by the sum of the joint positions. *)
Definition pose (segments : list string) (q : list Z) (segment : string)
    : option (@Frame Z_scalar) :=
  if negb (Nat.eqb (List.length q) (List.length segments)) then None
  else if existsb (String.eqb segment) segments
  then Some (mkFrame (quarter_turns (fold_right Z.add 0%Z q)) (mkVector 0 0 0)%Z)
  else None.

(** A proportional controller; its state is the gain. *)
Definition proportional (gain : Z) (e : @Vector6D Z_scalar) : @Vector6D Z_scalar :=
  mkVector6D (Z.mul gain (c0 e)) (Z.mul gain (c1 e)) (Z.mul gain (c2 e))
             (Z.mul gain (c3 e)) (Z.mul gain (c4 e)) (Z.mul gain (c5 e)).

#[export] Instance collaborators : @Collaborators Z_scalar := {
  UrdfModel := list UrdfJoint;
  KdlTree := list UrdfJoint;
  KdlChain := list string;
  ForwardDynamicsSolver := Simulation;
  TreeFkSolverPos_recursive := list string;
  SpatialPIDController := Z;
  initString := parse;
  getJoint := find_joint;
  treeFromUrdfModel := fun model => match model with [] => None | _ => Some model end;
  getChain := chain_between;
  fds_new := mkSimulation [] [] [] [];
  fds_init := fun _ chain up lo =>
    mkSimulation (map (fun _ => 0%Z) chain) (map (fun _ => 0%Z) chain) up lo;
  setStartState := fun s joints handles =>
    mkSimulation (map (measured joints (@getPosition _)) handles)
                 (map (measured joints (@getVelocity _)) handles)
                 (sim_upper s) (sim_lower s);
  getJointControlCmds := simulate;
  getPositions := sim_positions;
  fk_new := fun chain => chain;
  JntToCart := pose;
  spatial_new := 0%Z;
  spatial_init := fun _ _ => 1%Z;
  spatial_call := fun gain e _ => (gain, proportional gain e)
}.

(** A robot with the two joints of the arm, [joint1] one quarter turn from
    its zero position. *)
Definition robot : @RobotHW Z_scalar :=
  mkRobotHW
    (fun name =>
       if String.eqb name "joint1" then Some (mkJointState 1 0 0)%Z
       else if String.eqb name "joint2" then Some (mkJointState 0 0 0)%Z
       else None)
    [].

(** Parameter servers: a complete one, and one without [joints]. *)
Definition parameters (with_joints : bool) (key : string) : option XmlRpcValue :=
  if String.eqb key "/robot_description" then Some (TypeString "arm")
  else if String.eqb key "/ctrl/robot_base_link" then Some (TypeString "base_link")
  else if String.eqb key "/ctrl/end_effector_link" then Some (TypeString "tool0")
  else if String.eqb key "/ctrl/joints" then
    if with_joints then Some (TypeStringArray ["joint1"; "joint2"]) else None
  else None.

Definition nh : NodeHandle := mkNodeHandle "/ctrl" (parameters true).

Definition nh_without_joints : NodeHandle := mkNodeHandle "/ctrl" (parameters false).

Definition zero6 : @Vector6D Z_scalar := (mkVector6D 0 0 0 0 0 0)%Z.

Definition fresh (hwi : HardwareInterface) : CartesianControllerBase hwi :=
  CartesianControllerBase_new hwi false zero6.

(** The controller after a successful [init] and [starting]. *)
Definition running (hwi : HardwareInterface) : CartesianControllerBase hwi :=
  starting (fst (init (fresh hwi) robot nh)) robot (mkDuration 0 0).

Definition now : Time := mkDuration 0 0.

Definition period : Duration := mkDuration 1 0.

Definition push : @Vector6D Z_scalar := (mkVector6D 1 2 3 4 5 1)%Z.

(** The running controller after [pause], and after one tick. *)
Definition paused (hwi : HardwareInterface) : CartesianControllerBase hwi :=
  pause (running hwi) now.

Definition ticked (hwi : HardwareInterface) : CartesianControllerBase hwi :=
  computeJointControlCmds (running hwi) push period.

(** A full 6x6 tensor: the coefficient at [(i, j)] is [6 i + j + 1]. *)
Definition tensor : @Matrix6D Z_scalar :=
  fun i j => Z.of_nat (6 * i + j + 1).

End Demo.

(** ** Further scenarios on the planar arm *)

Module Scenario.
Import Demo.

(** A robot that has lost [joint2]. *)
Definition robot_without_joint2 : @RobotHW Z_scalar :=
  mkRobotHW
    (fun name =>
       if String.eqb name "joint1" then Some (@mkJointState Z_scalar 1%Z 0%Z 0%Z)
       else None)
    [].

(** A controller whose [m_paused] happens to start as [true]. *)
Definition fresh_paused (hwi : HardwareInterface) : CartesianControllerBase hwi :=
  CartesianControllerBase_new hwi true zero6.

(** The controller after [init] has thrown for the handle of [joint2]. *)
Definition after_failure (hwi : HardwareInterface) : CartesianControllerBase hwi :=
  fst (init (fresh hwi) robot_without_joint2 nh).

(** Two ticks. *)
Definition two_ticks : list (@Call Z_scalar) :=
  [CallTick push period; CallTick zero6 period].

(** A restart and more ticks, with a second [pause]. *)
Definition restart : list (@Call Z_scalar) :=
  [CallStarting now; CallTick push period; CallPause now;
   CallTick push period].

(** A whole session: a failed [init], a good one, and some work. *)
Definition session : list (@Call Z_scalar) :=
  [CallInit nh_without_joints; CallInit nh; CallStarting now;
   CallTick push period; CallPause now; CallTick push period;
   CallResume now; CallTick push period].

(** A symmetric tensor: the coefficient at [(i, j)] is [i + j + i j]. *)
Definition symmetric_tensor : @Matrix6D Z_scalar :=
  fun i j => Z.of_nat (i + j + i * j).

(** An arm whose second joint, [spin], is continuous: the robot
    description gives it no limits. *)
Definition wrist : list (@UrdfJoint Z_scalar) :=
  [joint "joint1"; mkUrdfJoint "spin" None].

Definition parse_wrist (description : string)
    : option (list (@UrdfJoint Z_scalar)) :=
  if String.eqb description "wrist" then Some wrist else parse description.

Definition wrist_collaborators : @Collaborators Z_scalar := {|
  UrdfModel := list UrdfJoint;
  KdlTree := list UrdfJoint;
  KdlChain := list string;
  ForwardDynamicsSolver := Simulation;
  TreeFkSolverPos_recursive := list string;
  SpatialPIDController := Z;
  initString := parse_wrist;
  getJoint := find_joint;
  treeFromUrdfModel := fun model => match model with [] => None | _ => Some model end;
  getChain := chain_between;
  fds_new := mkSimulation [] [] [] [];
  fds_init := fun _ chain up lo =>
    mkSimulation (map (fun _ => 0%Z) chain) (map (fun _ => 0%Z) chain) up lo;
  setStartState := fun s joints handles =>
    mkSimulation (map (measured joints (@getPosition _)) handles)
                 (map (measured joints (@getVelocity _)) handles)
                 (sim_upper s) (sim_lower s);
  getJointControlCmds := simulate;
  getPositions := sim_positions;
  fk_new := fun chain => chain;
  JntToCart := pose;
  spatial_new := 0%Z;
  spatial_init := fun _ _ => 1%Z;
  spatial_call := fun gain e _ => (gain, proportional gain e)
|}.

Definition wrist_parameters (key : string) : option XmlRpcValue :=
  if String.eqb key "/robot_description" then Some (TypeString "wrist")
  else if String.eqb key "/ctrl/joints" then
    Some (TypeStringArray ["joint1"; "spin"])
  else parameters false key.

Definition wrist_nh : NodeHandle := mkNodeHandle "/ctrl" wrist_parameters.

Definition wrist_fresh
    : @CartesianControllerBase Z_scalar wrist_collaborators PositionJointInterface :=
  @CartesianControllerBase_new Z_scalar wrist_collaborators
    PositionJointInterface false zero6.

End Scenario.

(** ** The frame utilities in binary64

    An instance over [binary64] for the frame utilities. KDL computes the
    orientation of a segment from the joint angles with sine and cosine;
    here the solver of the forward kinematics holds the frames that it
    returns. The other collaborators play no part in the frame utilities
    and are left empty. *)

Module Binary64.

Definition frames : Type := list (string * @Frame binary64).

Fixpoint frame_of (solver : frames) (segment : string)
    : option (@Frame binary64) :=
  match solver with
  | [] => None
  | (name, f) :: rest =>
    if String.eqb name segment then Some f else frame_of rest segment
  end.

Definition collaborators : @Collaborators binary64 := {|
  UrdfModel := unit;
  KdlTree := unit;
  KdlChain := unit;
  ForwardDynamicsSolver := list float;
  TreeFkSolverPos_recursive := frames;
  SpatialPIDController := unit;
  initString := fun _ => None;
  getJoint := fun _ _ => None;
  treeFromUrdfModel := fun _ => None;
  getChain := fun _ _ _ => None;
  fds_new := [];
  fds_init := fun s _ _ _ => s;
  setStartState := fun s _ _ => s;
  getJointControlCmds := fun (s : list float) period _ =>
    (s, @mkJointTrajectoryPoint binary64 s [] [] [] period);
  getPositions := fun (s : list float) => (s : list (@K binary64));
  fk_new := fun _ => [];
  JntToCart := fun solver _ segment => frame_of solver segment;
  spatial_new := tt;
  spatial_init := fun s _ => s;
  spatial_call := fun s e _ => (s, e)
|}.

(** The double nearest to the sine and cosine of 45 degrees. *)
Definition half_sqrt2 : float := 0x1.6a09e667f3bcdp-1%float.

(** A rotation about z by 45 degrees, as [Rotation::RotZ] fills it. *)
Definition rotz45 : @Rotation binary64 :=
  @mkRotation binary64
    half_sqrt2 (PrimFloat.opp half_sqrt2) 0%float
    half_sqrt2 half_sqrt2 0%float
    0%float 0%float 1%float.

(** An initialised controller with one joint at 45 degrees. *)
Definition turned
    : @CartesianControllerBase binary64 collaborators PositionJointInterface :=
  @mkController binary64 collaborators PositionJointInterface
    true false "base_link" "tool0" ["joint1"] [mkJointHandle "joint1"]
    [half_sqrt2]
    (Some [("joint1", @mkFrame binary64 rotz45
                        (@mkVector binary64 0%float 0%float 0%float))])
    tt
    (@mkVector6D binary64 0%float 0%float 0%float 0%float 0%float 0%float)
    (@mkJointTrajectoryPoint binary64 [] [] [] [] (mkDuration 0 0)).


(** A moderate vector. *)
Definition small : @Vector6D binary64 :=
  @mkVector6D binary64 1%float 2%float 3%float 4%float 5%float 6%float.

(** A vector with an infinite component. *)
Definition unbounded : @Vector6D binary64 :=
  @mkVector6D binary64 infinity 2%float 3%float 4%float 5%float 6%float.

End Binary64.

(** * Properties *)

Section Lifecycle.
Context {S : Scalar} {C : Collaborators}.
Variable hwi : HardwareInterface.
Implicit Types (c : CartesianControllerBase hwi) (hw : RobotHW) (nh : NodeHandle).

(** [init] decomposed: what it does once the three string parameters are
    there and the model has been parsed. *)
Lemma init_unfold c hw nh d b t model :
  m_already_initialized c = false ->
  getParam_string nh "/robot_description" = Some d ->
  getParam_string nh "robot_base_link" = Some b ->
  getParam_string nh "end_effector_link" = Some t ->
  initString d = Some model ->
  init c hw nh =
  let c := set_end_effector_link (set_robot_base_link c b) t in
  match treeFromUrdfModel model with
  | None => (c, Thrown error_tree)
  | Some robot_tree =>
  match getChain robot_tree b t with
  | None => (c, Thrown error_chain)
  | Some robot_chain =>
  match getParam_strings nh "joints" with
  | None => (c, Thrown (error_joints nh))
  | Some names =>
  let c := set_joint_names c names in
  match parse_limits model names with
  | LimitsUnknownJoint name => (c, Thrown (error_joint name))
  | LimitsNullPointer => (c, Undefined)
  | LimitsParsed us ls =>
  match get_handles hw names (m_joint_handles c) with
  | (handles, Some name) => (set_joint_handles c handles, Thrown (error_handle name))
  | (handles, None) =>
    (set_paused (set_already_initialized
       (set_spatial_controller
          (set_forward_kinematics_solver
             (set_forward_dynamics_solver (set_joint_handles c handles)
                (fds_init (m_forward_dynamics_solver c) robot_chain us ls))
             (Some (fk_new robot_chain)))
          (spatial_init (m_spatial_controller c) nh)) true) false,
     Returned true)
  end end end end end.
Proof.
  intros Hinit Hd Hb Ht Hm. unfold init.
  rewrite Hinit, Hd, Hb, Ht, Hm. reflexivity.
Qed.

(** A call of [init] that does not return [true] leaves the flag as it
    found it. *)
Lemma init_flag c hw nh :
  snd (init c hw nh) <> Returned true ->
  m_already_initialized (fst (init c hw nh)) = m_already_initialized c.
Proof.
  unfold init.
  destruct (m_already_initialized c) eqn:Hinit; [intros; exact Hinit|].
  destruct (getParam_string nh "/robot_description"); [|intros; exact Hinit].
  destruct (getParam_string nh "robot_base_link"); [|intros; exact Hinit].
  destruct (getParam_string nh "end_effector_link"); [|intros; exact Hinit].
  destruct (initString _); [|intros; exact Hinit].
  destruct (treeFromUrdfModel _); [|intros; exact Hinit].
  destruct (getChain _ _ _); [|intros; exact Hinit].
  destruct (getParam_strings nh "joints"); [|intros; exact Hinit].
  destruct (parse_limits _ _); try (intros; exact Hinit).
  destruct (get_handles _ _ _) as [handles [name|]]; [intros; exact Hinit|].
  cbn [snd]. congruence.
Qed.

(** C1, as amended. When [init] reports a configuration error, by
    returning [false] or by an exception, the flag [m_already_initialized]
    stays [false], so that the next call validates everything again. How the error
    reaches the caller depends on the check: a missing
    [/robot_description], [robot_base_link] or [end_effector_link] and a
    description that does not parse make [init] return [false]; a model
    without a KDL tree, an unresolvable chain, a missing [joints]
    parameter, a joint that the model does not know and a joint without a
    hardware handle make it leave by an exception. *)
Theorem init_configuration_error c hw nh
    (Hfresh : m_already_initialized c = false) :
  (snd (init c hw nh) = Returned false \/
   (exists what, snd (init c hw nh) = Thrown what) ->
   m_already_initialized (fst (init c hw nh)) = false) /\
  (getParam_string nh "/robot_description" = None \/
   getParam_string nh "robot_base_link" = None \/
   getParam_string nh "end_effector_link" = None ->
   snd (init c hw nh) = Returned false) /\
  (forall d b t,
     getParam_string nh "/robot_description" = Some d ->
     getParam_string nh "robot_base_link" = Some b ->
     getParam_string nh "end_effector_link" = Some t ->
     (initString d = None -> snd (init c hw nh) = Returned false) /\
     (forall model,
        initString d = Some model ->
        (treeFromUrdfModel model = None ->
         snd (init c hw nh) = Thrown error_tree) /\
        (forall tree,
           treeFromUrdfModel model = Some tree ->
           (getChain tree b t = None ->
            snd (init c hw nh) = Thrown error_chain) /\
           (forall chain,
              getChain tree b t = Some chain ->
              (getParam_strings nh "joints" = None ->
               snd (init c hw nh) = Thrown (error_joints nh)) /\
              (forall names,
                 getParam_strings nh "joints" = Some names ->
                 (forall name,
                    parse_limits model names = LimitsUnknownJoint name ->
                    snd (init c hw nh) = Thrown (error_joint name)) /\
                 (forall us ls handles name,
                    parse_limits model names = LimitsParsed us ls ->
                    get_handles hw names (m_joint_handles c)
                      = (handles, Some name) ->
                    snd (init c hw nh) = Thrown (error_handle name))))))).
Proof.
  split; [|split].
  - intros Hout. rewrite init_flag; [assumption|].
    destruct Hout as [->|[what ->]]; discriminate.
  - unfold init. rewrite Hfresh.
    destruct (getParam_string nh "/robot_description"); [|reflexivity].
    destruct (getParam_string nh "robot_base_link"); [|reflexivity].
    destruct (getParam_string nh "end_effector_link"); [|reflexivity].
    intros [H|[H|H]]; discriminate H.
  - intros d b t Hd Hb Ht. split.
    + intros Hm. unfold init. rewrite Hfresh, Hd, Hb, Ht, Hm. reflexivity.
    + intros model Hm.
      rewrite (init_unfold c hw nh Hfresh Hd Hb Ht Hm). cbv zeta.
      split; [intros ->; reflexivity|].
      intros tree ->. split; [intros ->; reflexivity|].
      intros chain ->. split; [intros ->; reflexivity|].
      intros names ->. split.
      * intros name ->. reflexivity.
      * intros us ls handles name -> Hh. cbn [m_joint_handles set_joint_names] in *.
        cbn [set_end_effector_link set_robot_base_link m_joint_handles].
        rewrite Hh. reflexivity.
Qed.

(** C2, as amended. [starting] re-anchors the simulation: the solver of
    the forward dynamics becomes [setStartState] of the joint handles, read
    against the hardware. Every other member, the flag [m_paused] among
    them, is as before; [starting] does not clear [m_paused]. *)
Theorem starting_reanchors_and_keeps_paused c hw (time : Time) :
  let c' := starting c hw time in
  m_forward_dynamics_solver c' =
    setStartState (m_forward_dynamics_solver c) (hw_joints hw)
                  (m_joint_handles c) /\
  m_paused c' = m_paused c /\
  m_already_initialized c' = m_already_initialized c /\
  m_joint_handles c' = m_joint_handles c /\
  m_joint_names c' = m_joint_names c /\
  m_robot_base_link c' = m_robot_base_link c /\
  m_end_effector_link c' = m_end_effector_link c /\
  m_forward_kinematics_solver c' = m_forward_kinematics_solver c /\
  m_spatial_controller c' = m_spatial_controller c /\
  m_cartesian_input c' = m_cartesian_input c /\
  m_simulated_joint_motion c' = m_simulated_joint_motion c.
Proof. cbv zeta. unfold starting. repeat split. Qed.

(** C5. [init] on a controller that is already initialised returns [true]
    at once and hands the controller back as it was, member by member. *)
Theorem init_idempotent c hw nh
    (Hdone : m_already_initialized c = true) :
  init c hw nh = (c, Returned true).
Proof. unfold init. rewrite Hdone. reflexivity. Qed.

(** C8. [resume] sets [m_paused] to [false] and touches nothing else: the
    solver of the forward dynamics, hence the simulated joint state, is the
    one held during the pause, and [setStartState] is not applied. *)
Theorem resume_only_clears_paused c (time : Time) :
  let c' := fst (resume c time) in
  m_paused c' = false /\
  m_forward_dynamics_solver c' = m_forward_dynamics_solver c /\
  m_simulated_joint_motion c' = m_simulated_joint_motion c /\
  m_cartesian_input c' = m_cartesian_input c /\
  m_spatial_controller c' = m_spatial_controller c /\
  m_forward_kinematics_solver c' = m_forward_kinematics_solver c /\
  m_joint_handles c' = m_joint_handles c /\
  m_joint_names c' = m_joint_names c /\
  m_robot_base_link c' = m_robot_base_link c /\
  m_end_effector_link c' = m_end_effector_link c /\
  m_already_initialized c' = m_already_initialized c.
Proof. cbv zeta. unfold resume. cbn [fst]. repeat split. Qed.

(** C10. [resume] returns [true] in every state of the controller. *)
Theorem resume_returns_true c (time : Time) :
  snd (resume c time) = true.
Proof. reflexivity. Qed.

End Lifecycle.

Section Tick.
Context {S : Scalar} {C : Collaborators}.
Variable hwi : HardwareInterface.
Implicit Types (c : CartesianControllerBase hwi) (hw : RobotHW).

(** The writing loop, entered at index [i] with enough values left, writes
    one command per handle: the value at the handle's index, under the
    handle's name, in the order of the handles. *)
Lemma write_commands_spec (values : list K) (handles : list JointHandle) :
  forall (i : nat) hw,
    i + List.length handles <= List.length values ->
    exists written,
      write_commands values handles i hw
        = Some (mkRobotHW (hw_joints hw) (hw_commands hw ++ written)) /\
      List.length written = List.length handles /\
      forall k h,
        nth_error handles k = Some h ->
        exists v,
          nth_error values (i + k) = Some v /\
          nth_error written k = Some (getName h, v).
Proof.
  induction handles as [|h rest IH]; intros i hw Hlen.
  - exists []. rewrite app_nil_r. destruct hw. repeat split.
    intros [|k] h0 Hk; discriminate Hk.
  - cbn [List.length] in Hlen. cbn [write_commands].
    destruct (nth_error values i) as [v|] eqn:Hv.
    2:{ apply nth_error_None in Hv. lia. }
    destruct (IH (Datatypes.S i) (setCommand h v hw)) as (written & Hw & Hn & Hk).
    { lia. }
    exists ((getName h, v) :: written). split; [|split].
    + rewrite Hw. cbn [setCommand hw_joints hw_commands].
      rewrite <- app_assoc. reflexivity.
    + cbn [List.length]. now rewrite Hn.
    + intros [|k] h0 Hh0.
      * injection Hh0 as <-. exists v. rewrite Nat.add_0_r. now split.
      * destruct (Hk k h0 Hh0) as (v0 & Hv0 & Hw0). exists v0.
        replace (i + Datatypes.S k) with (Datatypes.S i + k) by lia. now split.
Qed.

(** C3. A tick that is not paused stores the composition of the two
    solvers: [m_cartesian_input] is the output of the spatial controller
    on the raw error and the period, and [m_simulated_joint_motion] is what
    the solver of the forward dynamics makes of the period and of that
    very output. Both solvers advance to their next state. *)
Theorem computeJointControlCmds_composition c (error : Vector6D)
    (period : Duration) (Hrun : m_paused c = false) :
  let control := spatial_call (m_spatial_controller c) error period in
  let motion :=
    getJointControlCmds (m_forward_dynamics_solver c) period (snd control) in
  let c' := computeJointControlCmds c error period in
  m_cartesian_input c' = snd control /\
  m_simulated_joint_motion c' = snd motion /\
  m_spatial_controller c' = fst control /\
  m_forward_dynamics_solver c' = fst motion.
Proof.
  cbv zeta. unfold computeJointControlCmds. rewrite Hrun.
  destruct (spatial_call (m_spatial_controller c) error period) as [sc input].
  cbn [m_forward_dynamics_solver m_cartesian_input set_cartesian_input
       set_spatial_controller snd fst].
  destruct (getJointControlCmds (m_forward_dynamics_solver c) period input)
    as [fds motion].
  repeat split.
Qed.

(** C4. A tick of a paused controller, whatever the error and the period,
    hands back the controller as it was (simulated joint motion, Cartesian
    input, solvers and all) and the hardware as it was: no command is
    written. *)
Theorem tick_paused_is_noop c hw (error : Vector6D) (period : Duration)
    (Hpaused : m_paused c = true) :
  tick c hw error period = (c, Some hw).
Proof.
  unfold tick, computeJointControlCmds. rewrite Hpaused.
  unfold writeJointControlCmds. destruct hwi; rewrite Hpaused; reflexivity.
Qed.

(** C9, as amended. The interface type, an index of the controller's type,
    selects the values that are written: the positions of the simulated
    joint motion for a position interface, its velocities for a velocity
    interface. A write that is not paused, on a controller whose simulated
    joint motion holds a value of that kind for every joint handle, issues
    exactly one command per joint handle, in the order of the handles:
    handle [i] receives the selected value at index [i]. *)
Theorem writeJointControlCmds_emits c hw
    (Hrun : m_paused c = false) :
  let values :=
    match hwi with
    | PositionJointInterface => positions (m_simulated_joint_motion c)
    | VelocityJointInterface => velocities (m_simulated_joint_motion c)
    end in
  List.length (m_joint_handles c) <= List.length values ->
  exists written,
    writeJointControlCmds c hw
      = Some (mkRobotHW (hw_joints hw) (hw_commands hw ++ written)) /\
    List.length written = List.length (m_joint_handles c) /\
    forall i h,
      nth_error (m_joint_handles c) i = Some h ->
      exists v,
        nth_error values i = Some v /\
        nth_error written i = Some (getName h, v).
Proof.
  cbv zeta. unfold writeJointControlCmds.
  destruct hwi; rewrite Hrun; intros Hlen;
    apply (write_commands_spec _ _ 0 hw); exact Hlen.
Qed.

End Tick.

Section FrameUtilities.
Context {S : Scalar} {E : Exact S} {C : Collaborators}.
Variable hwi : HardwareInterface.
Implicit Types (c : CartesianControllerBase hwi) (r : Rotation) (v : Vector).
Local Open Scope scalar_scope.

Add Ring scalar_ring : K_ring.

Lemma Rotation_mul_Vector_assoc (a b : Rotation) v :
  Rotation_mul_Vector a (Rotation_mul_Vector b v)
  = Rotation_mul_Vector (Rotation_mul a b) v.
Proof.
  destruct a, b, v. unfold Rotation_mul_Vector, Rotation_mul.
  cbn. f_equal; ring.
Qed.

Lemma Rotation_Identity_mul_Vector v :
  Rotation_mul_Vector Rotation_Identity v = v.
Proof.
  destruct v. unfold Rotation_mul_Vector, Rotation_Identity.
  cbn. f_equal; ring.
Qed.

(** On an orthonormal matrix [Inverse()] is the inverse. *)
Lemma Rotation_Inverse_cancel r v :
  orthonormal r ->
  Rotation_mul_Vector (Rotation_Inverse r) (Rotation_mul_Vector r v) = v.
Proof.
  intros Hr. rewrite Rotation_mul_Vector_assoc. unfold orthonormal in Hr.
  rewrite Hr. apply Rotation_Identity_mul_Vector.
Qed.

(** The two format conversions undo each other. *)
Lemma Wrench_of_Vector6D_of_Wrench (w : Wrench) :
  Wrench_of_Vector6D (Vector6D_of_Wrench w) = w.
Proof. destruct w as [[] []]. reflexivity. Qed.

Lemma Vector6D_of_Wrench_of_Vector6D (x : Vector6D) :
  Vector6D_of_Wrench (Wrench_of_Vector6D x) = x.
Proof. destruct x. reflexivity. Qed.


(** C7. The tensor overload returns the matrix whose top left block is
    [R * topLeft * R^T], whose bottom right block is
    [R * bottomRight * R^T], and whose two off-diagonal blocks are zero,
    whatever the off-diagonal blocks of the input are; [R] is the rotation
    of the resolved frame. *)
Theorem displayInBaseLink_tensor_blocks c (tensor : Matrix6D) (from : string)
    (fk : TreeFkSolverPos_recursive) (f : Frame)
    (Hfk : m_forward_kinematics_solver c = Some fk)
    (Hres : JntToCart fk (getPositions (m_forward_dynamics_solver c)) from
            = Some f) :
  let R := Matrix3D_of_Rotation (M f) in
  exists out,
    displayInBaseLink_tensor c tensor from = Some out /\
    topLeftCorner out
    = Matrix3D_mul (Matrix3D_mul R (topLeftCorner tensor)) (Matrix3D_transpose R) /\
    bottomRightCorner out
    = Matrix3D_mul (Matrix3D_mul R (bottomRightCorner tensor)) (Matrix3D_transpose R) /\
    (forall i j, (i < 3)%nat -> (3 <= j < 6)%nat -> out i j = k0) /\
    (forall i j, (3 <= i < 6)%nat -> (j < 3)%nat -> out i j = k0).
Proof.
  cbv zeta. unfold displayInBaseLink_tensor, lookup_transform.
  rewrite Hfk, Hres. eexists. split; [reflexivity|].
  split; [reflexivity|]. split; [reflexivity|].
  split; intros i j Hi Hj.
  - destruct i as [|[|[|i]]]; try lia;
      destruct j as [|[|[|[|[|[|j]]]]]]; try lia; reflexivity.
  - destruct j as [|[|[|j]]]; try lia;
      destruct i as [|[|[|[|[|[|i]]]]]]; try lia; reflexivity.
Qed.

End FrameUtilities.

(** * The properties on the planar arm *)

Section OnTheArm.
Import Demo.
Local Open Scope Z_scope.

(** C1, counterexample: the parameter [joints] is missing, a configuration
    error, and [init] does not return [false]: it throws. *)
Lemma init_missing_joints_throws :
  getParam_strings nh_without_joints "joints" = None /\
  snd (init (fresh PositionJointInterface) robot nh_without_joints)
    = Thrown "Failed to load /ctrl/joints from parameter server" /\
  snd (init (fresh PositionJointInterface) robot nh_without_joints)
    <> Returned false.
Proof. repeat split. discriminate. Qed.

(** C1 on the arm: after the exception the controller is still
    uninitialised. *)
Lemma init_configuration_error_witness :
  m_already_initialized (fresh PositionJointInterface) = false /\
  m_already_initialized
    (fst (init (fresh PositionJointInterface) robot nh_without_joints)) = false.
Proof.
  split; [reflexivity|].
  apply (init_configuration_error (fresh PositionJointInterface) robot
           nh_without_joints eq_refl).
  right. eexists. reflexivity.
Defined.

(** C2, counterexample: a paused controller is still paused after
    [starting]. *)
Lemma starting_leaves_paused_set :
  m_paused (paused PositionJointInterface) = true /\
  m_paused (starting (paused PositionJointInterface) robot now) = true /\
  m_paused (starting (paused PositionJointInterface) robot now) <> false.
Proof. repeat split. discriminate. Qed.

(** C3 on the arm: the gain is one, so the Cartesian input is the error;
    both joints advance by one quarter turn. *)
Lemma computeJointControlCmds_composition_witness :
  m_paused (running PositionJointInterface) = false /\
  m_cartesian_input (ticked PositionJointInterface) = push /\
  positions (m_simulated_joint_motion (ticked PositionJointInterface)) = [2; 1].
Proof.
  split; [reflexivity|].
  destruct (computeJointControlCmds_composition
              (running PositionJointInterface) push period eq_refl)
    as (Hinput & Hmotion & _).
  unfold ticked. rewrite Hinput, Hmotion. split; reflexivity.
Defined.

(** C4 on the paused arm. *)
Lemma tick_paused_is_noop_witness :
  m_paused (paused VelocityJointInterface) = true /\
  tick (paused VelocityJointInterface) robot push period
    = (paused VelocityJointInterface, Some robot).
Proof.
  split; [reflexivity|].
  apply (tick_paused_is_noop (paused VelocityJointInterface) robot push period).
  reflexivity.
Defined.

(** C5 on the arm: the second [init] does not even look at the parameters,
    a server without [joints] will do. *)
Lemma init_idempotent_witness :
  m_already_initialized (running PositionJointInterface) = true /\
  init (running PositionJointInterface) robot nh_without_joints
    = (running PositionJointInterface, Returned true).
Proof.
  split; [reflexivity|].
  apply (init_idempotent (running PositionJointInterface) robot
           nh_without_joints).
  reflexivity.
Defined.


(** C7 on the arm: a full tensor loses its off-diagonal blocks. *)
Lemma displayInBaseLink_tensor_blocks_witness :
  exists out,
    displayInBaseLink_tensor (running PositionJointInterface) tensor "joint2"
      = Some out /\
    out 0%nat 0%nat = 8 /\ out 0%nat 1%nat = -7 /\ out 0%nat 3%nat = 0 /\
    out 4%nat 2%nat = 0.
Proof.
  destruct (displayInBaseLink_tensor_blocks (running PositionJointInterface)
              tensor "joint2"
              (fk := ["joint1"; "joint2"]%string)
              (f := @mkFrame Z_scalar (quarter_turns 1) (@mkVector Z_scalar 0 0 0))
              eq_refl eq_refl)
    as (out & Hout & Htl & _ & Hur & Hll).
  exists out. split; [exact Hout|].
  pose proof (f_equal (@m00 _) Htl) as H00.
  pose proof (f_equal (@m01 _) Htl) as H01.
  cbn [topLeftCorner m00 m01] in H00, H01.
  rewrite H00, H01. repeat split.
  - apply Hur; lia.
  - apply Hll; lia.
Defined.

(** C9 on the arm after one tick: the positions [2; 1] go to the two
    handles. *)
Lemma writeJointControlCmds_emits_witness :
  m_paused (ticked PositionJointInterface) = false /\
  exists written,
    writeJointControlCmds (ticked PositionJointInterface) robot
      = Some (mkRobotHW (hw_joints robot) (hw_commands robot ++ written)) /\
    List.length written = 2%nat /\
    forall i h,
      nth_error (m_joint_handles (ticked PositionJointInterface)) i = Some h ->
      exists v,
        nth_error [2; 1] i = Some v /\
        nth_error written i = Some (getName h, v).
Proof.
  split; [reflexivity|].
  apply (writeJointControlCmds_emits (ticked PositionJointInterface) robot
           eq_refl).
  cbn. lia.
Defined.

End OnTheArm.

(** * Further properties of the life cycle *)

Section Initialisation.
Context {S : Scalar} {C : Collaborators}.
Variable hwi : HardwareInterface.
Implicit Types (c : CartesianControllerBase hwi) (hw : RobotHW) (nh : NodeHandle).

#[local] Abbreviation registered hw := (fun name : string => hw_joints hw name <> None).

(** The loop of the handles, when every joint is registered. *)
Lemma get_handles_all_registered hw (names : list string) :
  forall handles,
    Forall (registered hw) names ->
    get_handles hw names handles
    = (handles ++ map mkJointHandle names, None).
Proof.
  induction names as [|name rest IH]; intros handles Hreg.
  - cbn. now rewrite app_nil_r.
  - inversion Hreg as [|? ? Hname Hrest]; subst.
    cbn [get_handles]. unfold getHandle.
    destruct (hw_joints hw name) as [js|]; [|congruence].
    rewrite IH by assumption. rewrite <- app_assoc. reflexivity.
Qed.

(** The loop of the handles, up to the first joint that is not
    registered. *)
Lemma get_handles_first_missing hw (pre : list string) (name : string)
    (post : list string) :
  forall handles,
    Forall (registered hw) pre ->
    hw_joints hw name = None ->
    get_handles hw (pre ++ name :: post) handles
    = (handles ++ map mkJointHandle pre, Some name).
Proof.
  induction pre as [|n rest IH]; intros handles Hreg Hmiss.
  - cbn [app get_handles map]. unfold getHandle. rewrite Hmiss.
    now rewrite app_nil_r.
  - inversion Hreg as [|? ? Hn Hrest]; subst.
    cbn [app get_handles]. unfold getHandle.
    destruct (hw_joints hw n) as [js|]; [|congruence].
    rewrite IH by assumption. cbn [map]. rewrite <- app_assoc. reflexivity.
Qed.

Lemma get_handles_inv hw (names : list string) :
  forall handles handles',
    get_handles hw names handles = (handles', None) ->
    handles' = handles ++ map mkJointHandle names /\
    Forall (registered hw) names.
Proof.
  induction names as [|name rest IH]; intros handles handles' Hget.
  - cbn in Hget. injection Hget as <-. rewrite app_nil_r. now split.
  - cbn [get_handles] in Hget. unfold getHandle in Hget.
    destruct (hw_joints hw name) as [js|] eqn:Hname; [|discriminate].
    destruct (IH _ _ Hget) as [-> Hrest]. split.
    + rewrite <- app_assoc. reflexivity.
    + constructor; [congruence|assumption].
Qed.

(** The loop of the limits: on success the two arrays are aligned with the
    names. *)
Lemma parse_limits_aligned (model : UrdfModel) (names : list string) :
  forall us ls,
    parse_limits model names = LimitsParsed us ls ->
    List.length us = List.length names /\
    List.length ls = List.length names /\
    forall i name,
      nth_error names i = Some name ->
      exists j l,
        getJoint model name = Some j /\ limits j = Some l /\
        nth_error us i = Some (upper l) /\
        nth_error ls i = Some (lower l).
Proof.
  induction names as [|n rest IH]; intros us ls Hparse.
  - cbn in Hparse. injection Hparse as <- <-. repeat split.
    intros [|i] name Hi; discriminate Hi.
  - cbn [parse_limits] in Hparse.
    destruct (getJoint model n) as [j|] eqn:Hj; [|discriminate].
    destruct (limits j) as [l|] eqn:Hl; [|discriminate].
    destruct (parse_limits model rest) as [us' ls'| |] eqn:Hrest;
      try discriminate.
    injection Hparse as <- <-.
    destruct (IH us' ls' eq_refl) as (Hus & Hls & Hnth).
    cbn [List.length]. repeat split; try congruence.
    intros [|i] name Hi.
    + injection Hi as <-. exists j, l. repeat split; assumption.
    + apply Hnth. exact Hi.
Qed.

(** The loop of the limits stops at the first name that is unknown or has
    no limits. *)
Lemma parse_limits_first_offender (model : UrdfModel) (pre : list string)
    (name : string) (post : list string) :
  Forall (has_limits model) pre ->
  (getJoint model name = None ->
   parse_limits model (pre ++ name :: post) = LimitsUnknownJoint name) /\
  (forall j, getJoint model name = Some j -> limits j = None ->
   parse_limits model (pre ++ name :: post) = LimitsNullPointer).
Proof.
  induction pre as [|n rest IH]; intros Hpre.
  - split.
    + intros Hj. cbn [app parse_limits]. now rewrite Hj.
    + intros j Hj Hl. cbn [app parse_limits]. now rewrite Hj, Hl.
  - inversion Hpre as [|? ? (j0 & l0 & Hj0 & Hl0) Hrest]; subst.
    destruct (IH Hrest) as [Hunknown Hnull]. split.
    + intros Hj. cbn [app parse_limits]. rewrite Hj0, Hl0.
      now rewrite (Hunknown Hj).
    + intros j Hj Hl. cbn [app parse_limits]. rewrite Hj0, Hl0.
      now rewrite (Hnull j Hj Hl).
Qed.

(** What a successful first [init] has gone through. *)
Lemma init_success_inv c hw nh c' :
  m_already_initialized c = false ->
  init c hw nh = (c', Returned true) ->
  exists d b t model tree chain names us ls,
    getParam_string nh "/robot_description" = Some d /\
    getParam_string nh "robot_base_link" = Some b /\
    getParam_string nh "end_effector_link" = Some t /\
    initString d = Some model /\
    treeFromUrdfModel model = Some tree /\
    getChain tree b t = Some chain /\
    getParam_strings nh "joints" = Some names /\
    parse_limits model names = LimitsParsed us ls /\
    get_handles hw names (m_joint_handles c)
      = (m_joint_handles c ++ map mkJointHandle names, None) /\
    Forall (registered hw) names /\
    c' = mkController hwi true false b t names
           (m_joint_handles c ++ map mkJointHandle names)
           (fds_init (m_forward_dynamics_solver c) chain us ls)
           (Some (fk_new chain))
           (spatial_init (m_spatial_controller c) nh)
           (m_cartesian_input c) (m_simulated_joint_motion c).
Proof.
  intros Hfresh Hinit.
  destruct (getParam_string nh "/robot_description") as [d|] eqn:Hd.
  2:{ unfold init in Hinit. rewrite Hfresh, Hd in Hinit. discriminate. }
  destruct (getParam_string nh "robot_base_link") as [b|] eqn:Hb.
  2:{ unfold init in Hinit. rewrite Hfresh, Hd, Hb in Hinit. discriminate. }
  destruct (getParam_string nh "end_effector_link") as [t|] eqn:Ht.
  2:{ unfold init in Hinit. rewrite Hfresh, Hd, Hb, Ht in Hinit. discriminate. }
  destruct (initString d) as [model|] eqn:Hm.
  2:{ unfold init in Hinit. rewrite Hfresh, Hd, Hb, Ht, Hm in Hinit.
      discriminate. }
  rewrite (init_unfold c hw nh Hfresh Hd Hb Ht Hm) in Hinit. cbv zeta in Hinit.
  destruct (treeFromUrdfModel model) as [tree|] eqn:Htree; [|discriminate].
  destruct (getChain tree b t) as [chain|] eqn:Hchain; [|discriminate].
  destruct (getParam_strings nh "joints") as [names|] eqn:Hnames; [|discriminate].
  destruct (parse_limits model names) as [us ls| |] eqn:Hlimits;
    try discriminate.
  cbn [m_joint_handles set_joint_names set_end_effector_link
       set_robot_base_link] in Hinit.
  destruct (get_handles hw names (m_joint_handles c)) as [handles [name|]] eqn:Hh;
    [discriminate|].
  destruct (get_handles_inv _ _ _ Hh) as [-> Hreg].
  injection Hinit as <-.
  exists d, b, t, model, tree, chain, names, us, ls.
  repeat split; try reflexivity; assumption.
Qed.

End Initialisation.

Section InitOutcomes.
Context {S : Scalar} {C : Collaborators}.
Variable hwi : HardwareInterface.
Implicit Types (c : CartesianControllerBase hwi) (hw : RobotHW) (nh : NodeHandle).

#[local] Abbreviation registered hw := (fun name : string => hw_joints hw name <> None).

(** X1. A first [init] that returns [true] leaves the controller
    initialised and not paused, whatever [m_paused] held before, with the
    solver of the forward kinematics in place and the links and joint names
    of the parameter server stored; the Cartesian input and the simulated
    joint motion are not touched. *)
Theorem init_success_state c hw nh c'
    (Hfresh : m_already_initialized c = false)
    (Hinit : init c hw nh = (c', Returned true)) :
  m_already_initialized c' = true /\
  m_paused c' = false /\
  m_forward_kinematics_solver c' <> None /\
  getParam_string nh "robot_base_link" = Some (m_robot_base_link c') /\
  getParam_string nh "end_effector_link" = Some (m_end_effector_link c') /\
  getParam_strings nh "joints" = Some (m_joint_names c') /\
  m_cartesian_input c' = m_cartesian_input c /\
  m_simulated_joint_motion c' = m_simulated_joint_motion c.
Proof.
  destruct (init_success_inv c hw nh Hfresh Hinit)
    as (d & b & t & model & tree & chain & names & us & ls &
        Hd & Hb & Ht & Hm & Htree & Hchain & Hnames & Hlimits & Hh & Hreg & ->).
  cbn. repeat split; try assumption. discriminate.
Qed.

(** X2. A first [init] that returns [true] has pushed one handle per joint
    name, in the order of the names, behind the handles that the controller
    held already, and every joint name is registered with the hardware.
    Handle [i] belongs to joint name [i] only for a controller that held no
    handle before. *)
Theorem init_success_handles c hw nh c'
    (Hfresh : m_already_initialized c = false)
    (Hinit : init c hw nh = (c', Returned true)) :
  m_joint_handles c'
  = m_joint_handles c ++ map mkJointHandle (m_joint_names c') /\
  Forall (registered hw) (m_joint_names c') /\
  List.length (m_joint_handles c')
  = List.length (m_joint_handles c) + List.length (m_joint_names c') /\
  (m_joint_handles c = [] ->
   map getName (m_joint_handles c') = m_joint_names c').
Proof.
  destruct (init_success_inv c hw nh Hfresh Hinit)
    as (d & b & t & model & tree & chain & names & us & ls &
        Hd & Hb & Ht & Hm & Htree & Hchain & Hnames & Hlimits & Hh & Hreg & ->).
  cbn [m_joint_handles m_joint_names]. repeat split.
  - exact Hreg.
  - now rewrite length_app, length_map.
  - intros ->. cbn [app]. rewrite map_map. cbn [getName]. apply map_id.
Qed.

(** X3. A first [init] that returns [true] has initialised the solver of
    the forward dynamics with the chain between the two stored links and
    with two arrays of limits that have one entry per joint name: entry [i]
    is the upper, respectively lower, limit that the robot description
    gives for joint name [i]. The solver of the forward kinematics is built
    on the same chain. *)
Theorem init_success_limits c hw nh c'
    (Hfresh : m_already_initialized c = false)
    (Hinit : init c hw nh = (c', Returned true)) :
  exists d model tree chain us ls,
    getParam_string nh "/robot_description" = Some d /\
    initString d = Some model /\
    treeFromUrdfModel model = Some tree /\
    getChain tree (m_robot_base_link c') (m_end_effector_link c') = Some chain /\
    m_forward_dynamics_solver c'
    = fds_init (m_forward_dynamics_solver c) chain us ls /\
    m_forward_kinematics_solver c' = Some (fk_new chain) /\
    List.length us = List.length (m_joint_names c') /\
    List.length ls = List.length (m_joint_names c') /\
    forall i name,
      nth_error (m_joint_names c') i = Some name ->
      exists j l,
        getJoint model name = Some j /\ limits j = Some l /\
        nth_error us i = Some (upper l) /\
        nth_error ls i = Some (lower l).
Proof.
  destruct (init_success_inv c hw nh Hfresh Hinit)
    as (d & b & t & model & tree & chain & names & us & ls &
        Hd & Hb & Ht & Hm & Htree & Hchain & Hnames & Hlimits & Hh & Hreg & ->).
  destruct (parse_limits_aligned model names Hlimits) as (Hus & Hls & Hnth).
  exists d, model, tree, chain, us, ls. cbn. repeat split; assumption.
Qed.

(** X4. When [getHandle] throws for a joint, the handles of the joint names
    before it have been pushed already and stay in [m_joint_handles], and
    the new joint names stay in [m_joint_names]; the controller is still
    uninitialised. *)
Theorem init_handle_failure_keeps_prefix c hw nh
    (d b t : string) (model : UrdfModel) (tree : KdlTree) (chain : KdlChain)
    (pre : list string) (name : string) (post : list string) (us ls : list K)
    (Hfresh : m_already_initialized c = false)
    (Hd : getParam_string nh "/robot_description" = Some d)
    (Hb : getParam_string nh "robot_base_link" = Some b)
    (Ht : getParam_string nh "end_effector_link" = Some t)
    (Hm : initString d = Some model)
    (Htree : treeFromUrdfModel model = Some tree)
    (Hchain : getChain tree b t = Some chain)
    (Hnames : getParam_strings nh "joints" = Some (pre ++ name :: post))
    (Hlimits : parse_limits model (pre ++ name :: post) = LimitsParsed us ls)
    (Hpre : Forall (registered hw) pre)
    (Hmiss : hw_joints hw name = None) :
  let c' := fst (init c hw nh) in
  snd (init c hw nh) = Thrown (error_handle name) /\
  m_joint_handles c' = m_joint_handles c ++ map mkJointHandle pre /\
  m_joint_names c' = pre ++ name :: post /\
  m_already_initialized c' = false.
Proof.
  cbv zeta. rewrite (init_unfold c hw nh Hfresh Hd Hb Ht Hm). cbv zeta.
  rewrite Htree, Hchain, Hnames, Hlimits.
  cbn [m_joint_handles set_joint_names set_end_effector_link
       set_robot_base_link].
  rewrite get_handles_first_missing by assumption.
  cbn. repeat split. exact Hfresh.
Qed.

(** X5. The first joint name that the robot description does not resolve
    to a joint with limits decides how the loop of the limits ends: an
    unknown joint throws, and a joint without limits (a null [limits]
    pointer, as for a continuous joint) is dereferenced, which is
    undefined behaviour. After the exception for an unknown joint the
    joint handles are as before: the loop of the handles was not reached. *)
Theorem init_first_joint_without_limits c hw nh
    (d b t : string) (model : UrdfModel) (tree : KdlTree) (chain : KdlChain)
    (pre : list string) (name : string) (post : list string)
    (Hfresh : m_already_initialized c = false)
    (Hd : getParam_string nh "/robot_description" = Some d)
    (Hb : getParam_string nh "robot_base_link" = Some b)
    (Ht : getParam_string nh "end_effector_link" = Some t)
    (Hm : initString d = Some model)
    (Htree : treeFromUrdfModel model = Some tree)
    (Hchain : getChain tree b t = Some chain)
    (Hnames : getParam_strings nh "joints" = Some (pre ++ name :: post))
    (Hpre : Forall (has_limits model) pre) :
  (getJoint model name = None ->
   snd (init c hw nh) = Thrown (error_joint name)) /\
  (forall j, getJoint model name = Some j -> limits j = None ->
   snd (init c hw nh) = Undefined) /\
  (getJoint model name = None ->
   m_joint_handles (fst (init c hw nh)) = m_joint_handles c).
Proof.
  rewrite (init_unfold c hw nh Hfresh Hd Hb Ht Hm). cbv zeta.
  rewrite Htree, Hchain, Hnames.
  destruct (parse_limits_first_offender name post Hpre)
    as [Hunknown Hnull].
  split; [|split].
  - intros Hj. now rewrite (Hunknown Hj).
  - intros j Hj Hl. now rewrite (Hnull j Hj Hl).
  - intros Hj. now rewrite (Hunknown Hj).
Qed.

End InitOutcomes.

(** * Further properties of the tick *)

Section TickOutcomes.
Context {S : Scalar} {C : Collaborators}.
Variable hwi : HardwareInterface.
Implicit Types (c : CartesianControllerBase hwi) (hw : RobotHW).

(** The values that the specialisation for [hwi] writes. *)
#[local] Abbreviation selected m :=
  (match hwi with
   | PositionJointInterface => positions m
   | VelocityJointInterface => velocities m
   end).

(** With too few values left, the writing loop reads beyond the end. *)
Lemma write_commands_short (values : list K) (handles : list JointHandle) :
  forall (i : nat) hw,
    i <= List.length values ->
    List.length values < i + List.length handles ->
    write_commands values handles i hw = None.
Proof.
  induction handles as [|h rest IH]; intros i hw Hi Hlen;
    cbn [List.length] in Hlen.
  - lia.
  - cbn [write_commands].
    destruct (nth_error values i) as [v|] eqn:Hv; [|reflexivity].
    assert (i < List.length values) by (apply nth_error_Some; congruence).
    apply IH; lia.
Qed.

(** The writing loop leaves the measured joint states alone. *)
Lemma write_commands_joints (values : list K) (handles : list JointHandle) :
  forall (i : nat) hw hw',
    write_commands values handles i hw = Some hw' ->
    hw_joints hw' = hw_joints hw.
Proof.
  induction handles as [|h rest IH]; intros i hw hw' Hw; cbn [write_commands] in Hw.
  - now injection Hw as <-.
  - destruct (nth_error values i) as [v|]; [|discriminate].
    now rewrite (IH _ _ _ Hw).
Qed.

Lemma writeJointControlCmds_unfold c hw :
  writeJointControlCmds c hw
  = if m_paused c then Some hw
    else write_commands (selected (m_simulated_joint_motion c))
                        (m_joint_handles c) 0 hw.
Proof. unfold writeJointControlCmds. destruct hwi; reflexivity. Qed.

(** What [computeJointControlCmds] does when the controller runs. *)
Lemma computeJointControlCmds_running c (error : Vector6D) (period : Duration) :
  m_paused c = false ->
  computeJointControlCmds c error period
  = let control := spatial_call (m_spatial_controller c) error period in
    let motion :=
      getJointControlCmds (m_forward_dynamics_solver c) period (snd control) in
    mkController hwi (m_already_initialized c) false (m_robot_base_link c)
      (m_end_effector_link c) (m_joint_names c) (m_joint_handles c)
      (fst motion) (m_forward_kinematics_solver c) (fst control)
      (snd control) (snd motion).
Proof.
  intros Hrun. unfold computeJointControlCmds. rewrite Hrun. cbv zeta.
  destruct (spatial_call (m_spatial_controller c) error period) as [sc input].
  cbn [m_forward_dynamics_solver m_cartesian_input set_cartesian_input
       set_spatial_controller snd fst].
  destruct (getJointControlCmds (m_forward_dynamics_solver c) period input)
    as [fds motion].
  unfold set_simulated_joint_motion, set_forward_dynamics_solver,
    set_cartesian_input, set_spatial_controller.
  cbn. now rewrite Hrun.
Qed.

(** [computeJointControlCmds] never touches the configuration. *)
Lemma computeJointControlCmds_configuration c (error : Vector6D)
    (period : Duration) :
  let c' := computeJointControlCmds c error period in
  m_already_initialized c' = m_already_initialized c /\
  m_paused c' = m_paused c /\
  m_joint_handles c' = m_joint_handles c /\
  m_joint_names c' = m_joint_names c /\
  m_robot_base_link c' = m_robot_base_link c /\
  m_end_effector_link c' = m_end_effector_link c /\
  m_forward_kinematics_solver c' = m_forward_kinematics_solver c.
Proof.
  cbv zeta. destruct (m_paused c) eqn:Hp.
  - unfold computeJointControlCmds. rewrite Hp. repeat split. exact Hp.
  - rewrite computeJointControlCmds_running by exact Hp. cbn. repeat split.
Qed.

(** X6. A write is undefined behaviour exactly when the controller is not
    paused and the simulated joint motion holds fewer values of the
    interface's kind than there are joint handles; the loop then indexes
    the vector beyond its end. This is the case for a write that no
    [computeJointControlCmds] has preceded, as soon as there is one
    handle. *)
Theorem writeJointControlCmds_undefined_iff c hw :
  writeJointControlCmds c hw = None <->
  m_paused c = false /\
  List.length (selected (m_simulated_joint_motion c))
  < List.length (m_joint_handles c).
Proof.
  rewrite writeJointControlCmds_unfold. split.
  - destruct (m_paused c); [discriminate|]. intros Hw. split; [reflexivity|].
    destruct (Nat.lt_ge_cases
                (List.length (selected (m_simulated_joint_motion c)))
                (List.length (m_joint_handles c))) as [Hlt|Hge]; [exact Hlt|].
    destruct (write_commands_spec
                (selected (m_simulated_joint_motion c)) (m_joint_handles c)
                0 hw Hge) as (written & Hsome & _).
    rewrite Hsome in Hw. discriminate.
  - intros [-> Hlt]. apply write_commands_short; [lia|exact Hlt].
Qed.

(** X7. A tick of a running controller writes the motion that this very
    tick has computed: handle [i] receives value [i] of what the solver of
    the forward dynamics returns for the output of the spatial controller
    on the tick's error and period, provided the solver returns a value for
    every handle. *)
Theorem tick_emits_fresh_motion c hw (error : Vector6D) (period : Duration)
    (Hrun : m_paused c = false) :
  let control := spatial_call (m_spatial_controller c) error period in
  let motion :=
    getJointControlCmds (m_forward_dynamics_solver c) period (snd control) in
  List.length (m_joint_handles c) <= List.length (selected (snd motion)) ->
  exists written,
    tick c hw error period
    = (computeJointControlCmds c error period,
       Some (mkRobotHW (hw_joints hw) (hw_commands hw ++ written))) /\
    List.length written = List.length (m_joint_handles c) /\
    forall i h,
      nth_error (m_joint_handles c) i = Some h ->
      exists v,
        nth_error (selected (snd motion)) i = Some v /\
        nth_error written i = Some (getName h, v).
Proof.
  cbv zeta. intros Hlen. unfold tick.
  rewrite writeJointControlCmds_unfold.
  rewrite computeJointControlCmds_running by exact Hrun. cbv zeta.
  cbn [m_paused m_simulated_joint_motion m_joint_handles].
  destruct (write_commands_spec _ _ 0 hw Hlen) as (written & Hw & Hn & Hk).
  exists written. rewrite Hw. repeat split; assumption.
Qed.

End TickOutcomes.

(** * Properties of call sequences *)

Section Runs.
Context {S : Scalar} {C : Collaborators}.
Variable hwi : HardwareInterface.
Implicit Types (c : CartesianControllerBase hwi) (hw : RobotHW) (nh : NodeHandle)
  (call : Call) (calls : list Call).

(** Only the successful end of [init] sets the solver pointer. *)
Lemma init_keeps_solver c hw nh :
  snd (init c hw nh) <> Returned true ->
  m_forward_kinematics_solver (fst (init c hw nh))
  = m_forward_kinematics_solver c.
Proof.
  unfold init.
  destruct (m_already_initialized c); [reflexivity|].
  destruct (getParam_string nh "/robot_description"); [|reflexivity].
  destruct (getParam_string nh "robot_base_link"); [|reflexivity].
  destruct (getParam_string nh "end_effector_link"); [|reflexivity].
  destruct (initString _); [|reflexivity].
  destruct (treeFromUrdfModel _); [|reflexivity].
  destruct (getChain _ _ _); [|reflexivity].
  destruct (getParam_strings nh "joints"); [|reflexivity].
  destruct (parse_limits _ _); try reflexivity.
  destruct (get_handles _ _ _) as [handles [name|]]; [reflexivity|].
  cbn [snd]. congruence.
Qed.

Lemma init_initialised c hw nh :
  m_already_initialized c = true -> init c hw nh = (c, Returned true).
Proof. intros Hdone. unfold init. now rewrite Hdone. Qed.

(** One call keeps "initialised if and only if the solver pointer is
    set". *)
Lemma step_solver_invariant c hw call c' hw' :
  (m_already_initialized c = true <-> m_forward_kinematics_solver c <> None) ->
  step c hw call = Some (c', hw') ->
  (m_already_initialized c' = true <-> m_forward_kinematics_solver c' <> None).
Proof.
  intros Hinv Hstep. destruct call as [nh|time|time|time|error period];
    cbn [step] in Hstep.
  - destruct (init c hw nh) as [c1 out] eqn:Hinit.
    destruct (m_already_initialized c) eqn:Hflag.
    + rewrite init_initialised in Hinit by exact Hflag.
      injection Hinit as <- <-. injection Hstep as <- <-.
      now rewrite Hflag.
    + assert (Hcases : out = Returned true \/ out <> Returned true).
      { destruct out as [[|]| |]; (now left) || (right; discriminate). }
      destruct Hcases as [->|Hfail].
      * injection Hstep as <- <-.
        destruct (init_success_inv c hw nh Hflag Hinit)
          as (d & b & t & model & tree & chain & names & us & ls & H).
        destruct H as (_ & _ & _ & _ & _ & _ & _ & _ & _ & _ & ->).
        cbn. split; [discriminate|reflexivity].
      * assert (c' = c1) as -> by (destruct out as [[|]| |]; congruence).
        pose proof (init_flag c hw nh) as Hf.
        pose proof (init_keeps_solver c hw nh) as Hs.
        rewrite Hinit in Hf, Hs. cbn [fst snd] in Hf, Hs.
        rewrite (Hf Hfail), (Hs Hfail), Hflag. exact Hinv.
  - injection Hstep as <- <-. exact Hinv.
  - injection Hstep as <- <-. exact Hinv.
  - injection Hstep as <- <-. exact Hinv.
  - unfold tick in Hstep.
    destruct (writeJointControlCmds _ hw) as [hw1|]; [|discriminate].
    injection Hstep as <- <-.
    destruct (computeJointControlCmds_configuration c error period)
      as (-> & _ & _ & _ & _ & _ & ->).
    exact Hinv.
Qed.

(** One call on an initialised controller keeps the configuration. *)
Lemma step_configuration c hw call c' hw' :
  m_already_initialized c = true ->
  step c hw call = Some (c', hw') ->
  m_already_initialized c' = true /\
  m_joint_handles c' = m_joint_handles c /\
  m_joint_names c' = m_joint_names c /\
  m_robot_base_link c' = m_robot_base_link c /\
  m_end_effector_link c' = m_end_effector_link c /\
  m_forward_kinematics_solver c' = m_forward_kinematics_solver c.
Proof.
  intros Hflag Hstep. destruct call as [nh|time|time|time|error period];
    cbn [step] in Hstep.
  - rewrite init_initialised in Hstep by exact Hflag.
    injection Hstep as <- <-. now repeat split.
  - injection Hstep as <- <-. now repeat split.
  - injection Hstep as <- <-. now repeat split.
  - injection Hstep as <- <-. now repeat split.
  - unfold tick in Hstep.
    destruct (writeJointControlCmds _ hw) as [hw1|]; [|discriminate].
    injection Hstep as <- <-.
    destruct (computeJointControlCmds_configuration c error period)
      as (-> & _ & -> & -> & -> & -> & ->).
    now repeat split.
Qed.

(** A call that is neither [init] nor [resume], on a paused controller,
    is defined, writes nothing and leaves the controller paused. *)
Lemma step_paused c hw call :
  m_paused c = true ->
  unpauses call = false ->
  exists c', step c hw call = Some (c', hw) /\ m_paused c' = true.
Proof.
  intros Hp Hcall. destruct call as [nh|time|time|time|error period];
    try discriminate Hcall; cbn [step].
  - eexists. split; [reflexivity|exact Hp].
  - eexists. split; [reflexivity|reflexivity].
  - unfold tick, computeJointControlCmds. rewrite Hp.
    rewrite writeJointControlCmds_unfold, Hp.
    eexists. split; [reflexivity|exact Hp].
Qed.

(** Ticks of a paused controller can be dropped from a call sequence. *)
Lemma run_paused_ticks c hw (ticks rest : list Call) :
  m_paused c = true ->
  forallb (@is_tick _) ticks = true ->
  run c hw (ticks ++ rest) = run c hw rest.
Proof.
  intros Hp. induction ticks as [|call ticks IH]; intros Hticks;
    [reflexivity|].
  cbn [forallb] in Hticks. apply andb_prop in Hticks as [Hcall Hticks].
  destruct call as [nh|time|time|time|error period]; try discriminate Hcall.
  cbn [app run step]. unfold tick, computeJointControlCmds. rewrite Hp.
  rewrite writeJointControlCmds_unfold, Hp. apply IH. exact Hticks.
Qed.

(** X8. Pausing a running controller, ticking any number of times with
    any errors and periods, and resuming gives back the controller and the
    hardware exactly as they were before the pause: the simulation
    continues as if the paused ticks had not occurred. *)
Theorem pause_ticks_resume c hw (time time' : Time) (ticks : list Call)
    (Hrun : m_paused c = false)
    (Hticks : forallb (@is_tick _) ticks = true) :
  run c hw (CallPause time :: ticks ++ [CallResume time']) = Some (c, hw).
Proof.
  cbn [run step].
  rewrite run_paused_ticks; [|reflexivity|exact Hticks].
  cbn [run step resume pause fst]. destruct c. cbn in Hrun. subst.
  reflexivity.
Qed.

(** X9. As long as neither [resume] nor [init] is called, a paused
    controller writes no command, whatever the sequence of [starting],
    [pause] and tick calls; in particular [starting] does not put a paused
    controller back to work. The sequence never runs into undefined
    behaviour. *)
Theorem run_paused_writes_nothing c hw calls
    (Hpaused : m_paused c = true)
    (Hcalls : forallb (fun call => negb (unpauses call)) calls = true) :
  exists c', run c hw calls = Some (c', hw) /\ m_paused c' = true.
Proof.
  revert c Hpaused Hcalls. induction calls as [|call calls IH];
    intros c Hpaused Hcalls.
  - exists c. now split.
  - cbn [forallb] in Hcalls. apply andb_prop in Hcalls as [Hcall Hcalls].
    apply negb_true_iff in Hcall.
    destruct (step_paused c hw call Hpaused Hcall) as (c1 & Hstep & Hp1).
    cbn [run]. rewrite Hstep. apply IH; assumption.
Qed.

(** X10. Once the controller is initialised, no sequence of calls changes
    its configuration: it stays initialised, and the joint handles, the
    joint names, the two link names and the solver of the forward
    kinematics are those that [init] has set up. *)
Theorem run_configuration_frozen c hw calls c' hw'
    (Hdone : m_already_initialized c = true)
    (Hrun : run c hw calls = Some (c', hw')) :
  m_already_initialized c' = true /\
  m_joint_handles c' = m_joint_handles c /\
  m_joint_names c' = m_joint_names c /\
  m_robot_base_link c' = m_robot_base_link c /\
  m_end_effector_link c' = m_end_effector_link c /\
  m_forward_kinematics_solver c' = m_forward_kinematics_solver c.
Proof.
  revert c hw Hdone Hrun. induction calls as [|call calls IH];
    intros c hw Hdone Hrun; cbn [run] in Hrun.
  - injection Hrun as <- <-. now repeat split.
  - destruct (step c hw call) as [[c1 hw1]|] eqn:Hstep; [|discriminate].
    destruct (step_configuration c hw call Hdone Hstep)
      as (Hdone1 & <- & <- & <- & <- & <-).
    exact (IH c1 hw1 Hdone1 Hrun).
Qed.

(** X11. In every state that a call sequence reaches from a newly
    constructed controller, the three frame utilities are defined if the
    controller is initialised, and dereference the null solver pointer if
    it is not. *)
Theorem run_frame_utilities_defined (paused0 : bool) (input0 : Vector6D)
    hw calls c' hw'
    (Hrun : run (CartesianControllerBase_new hwi paused0 input0) hw calls
            = Some (c', hw')) :
  forall (vector : Vector6D) (tensor : Matrix6D) (frame : string),
    (m_already_initialized c' = true ->
     displayInBaseLink c' vector frame <> None /\
     displayInTipLink c' vector frame <> None /\
     displayInBaseLink_tensor c' tensor frame <> None) /\
    (m_already_initialized c' = false ->
     displayInBaseLink c' vector frame = None /\
     displayInTipLink c' vector frame = None /\
     displayInBaseLink_tensor c' tensor frame = None).
Proof.
  assert (Hinv : m_already_initialized c' = true <->
                 m_forward_kinematics_solver c' <> None).
  { revert Hrun.
    assert (Hnew : m_already_initialized
                     (CartesianControllerBase_new hwi paused0 input0) = true <->
                   m_forward_kinematics_solver
                     (CartesianControllerBase_new hwi paused0 input0) <> None).
    { cbn. split; [discriminate|congruence]. }
    revert Hnew. generalize (CartesianControllerBase_new hwi paused0 input0).
    revert hw. induction calls as [|call calls IH]; intros hw c Hc Hrun;
      cbn [run] in Hrun.
    - injection Hrun as <- <-. exact Hc.
    - destruct (step c hw call) as [[c1 hw1]|] eqn:Hstep; [|discriminate].
      exact (IH hw1 c1 (step_solver_invariant c hw call Hc Hstep) Hrun). }
  intros vector tensor frame.
  unfold displayInBaseLink, displayInTipLink, displayInBaseLink_tensor.
  destruct (m_forward_kinematics_solver c') as [fk|].
  - split; [intros _; repeat split; discriminate|].
    intros Hflag. destruct Hinv as [_ Hinv].
    rewrite Hinv in Hflag by discriminate. discriminate.
  - split; [|intros _; repeat split].
    intros Hflag. destruct Hinv as [Hinv _]. now destruct (Hinv Hflag).
Qed.

End Runs.

(** * Further properties of the frame utilities *)

Section FrameOutcomes.
Context {S : Scalar} {E : Exact S} {C : Collaborators}.
Variable hwi : HardwareInterface.
Implicit Types (c : CartesianControllerBase hwi) (r : Rotation) (v : Vector).
Local Open Scope scalar_scope.

Add Ring scalar_ring' : K_ring.

Lemma Rotation_Inverse_involutive r :
  Rotation_Inverse (Rotation_Inverse r) = r.
Proof. destruct r. reflexivity. Qed.

(** A rotation moves to the other side of a dot product as its
    transpose. *)
Lemma dot_Rotation_mul_Vector r (a b : Vector) :
  dot (Rotation_mul_Vector r a) b
  = dot a (Rotation_mul_Vector (Rotation_Inverse r) b).
Proof. destruct r, a, b. unfold dot. cbn. ring. Qed.

Lemma dot_rotated r (a b : Vector) :
  orthonormal r ->
  dot (Rotation_mul_Vector r a) (Rotation_mul_Vector r b) = dot a b.
Proof.
  intros Hr. rewrite dot_Rotation_mul_Vector.
  now rewrite Rotation_Inverse_cancel.
Qed.

Lemma Matrix3D_mul_identity (a : Matrix3D) :
  Matrix3D_mul
    (Matrix3D_mul (Matrix3D_of_Rotation Rotation_Identity) a)
    (Matrix3D_transpose (Matrix3D_of_Rotation Rotation_Identity))
  = a.
Proof. destruct a. unfold Matrix3D_mul. cbn. f_equal; ring. Qed.

(** Transposition goes through [R * A * R^T] to [A]. *)
Lemma Matrix3D_transpose_congruence (R A : Matrix3D) :
  Matrix3D_transpose (Matrix3D_mul (Matrix3D_mul R A) (Matrix3D_transpose R))
  = Matrix3D_mul (Matrix3D_mul R (Matrix3D_transpose A)) (Matrix3D_transpose R).
Proof.
  destruct R, A. unfold Matrix3D_mul, Matrix3D_transpose. cbn. f_equal; ring.
Qed.

(** X12. A frame name that the solver of the forward kinematics does not
    resolve is not reported: the error code is dropped and the identity
    frame is used. With exact arithmetic ([Exact]) both vector utilities
    then return their argument, and the tensor utility returns the two
    diagonal blocks of its argument with zero off-diagonal blocks. In
    binary64 the products with the zeros of the identity turn an infinite
    component into NaN, so nothing of the kind is stated there. *)
Theorem unresolved_frame_is_identity c (vector : Vector6D) (tensor : Matrix6D)
    (frame : string) (fk : TreeFkSolverPos_recursive)
    (Hfk : m_forward_kinematics_solver c = Some fk)
    (Hres : JntToCart fk (getPositions (m_forward_dynamics_solver c)) frame
            = None) :
  lookup_transform fk c frame = Frame_Identity /\
  displayInBaseLink c vector frame = Some vector /\
  displayInTipLink c vector frame = Some vector /\
  exists out,
    displayInBaseLink_tensor c tensor frame = Some out /\
    topLeftCorner out = topLeftCorner tensor /\
    bottomRightCorner out = bottomRightCorner tensor /\
    (forall i j, (i < 3)%nat -> (3 <= j < 6)%nat -> out i j = k0) /\
    (forall i j, (3 <= i < 6)%nat -> (j < 3)%nat -> out i j = k0).
Proof.
  unfold displayInBaseLink, displayInTipLink, displayInBaseLink_tensor,
    lookup_transform.
  rewrite Hfk, Hres. cbn [M Frame_Identity]. split; [reflexivity|].
  split; [|split].
  - f_equal. unfold Rotation_mul_Wrench. cbn [force torque].
    rewrite !Rotation_Identity_mul_Vector.
    apply Vector6D_of_Wrench_of_Vector6D.
  - f_equal. unfold Rotation_mul_Wrench. cbn [force torque].
    replace (Rotation_Inverse Rotation_Identity) with Rotation_Identity
      by reflexivity.
    rewrite !Rotation_Identity_mul_Vector.
    apply Vector6D_of_Wrench_of_Vector6D.
  - eexists. split; [reflexivity|].
    rewrite !Matrix3D_mul_identity.
    split; [reflexivity|]. split; [reflexivity|].
    split; intros i j Hi Hj.
    + destruct i as [|[|[|i]]]; try lia;
        destruct j as [|[|[|[|[|[|j]]]]]]; try lia; reflexivity.
    + destruct j as [|[|[|j]]]; try lia;
        destruct i as [|[|[|[|[|[|i]]]]]]; try lia; reflexivity.
Qed.

(** X13. Expressing two 6-vectors of a resolved frame in the base link
    keeps the dot products of their linear parts, of their angular parts,
    and of the linear part of one with the angular part of the other; so
    the squared length of each part is kept too. The resolved orientation
    is a rotation matrix, and the arithmetic is exact. *)
Theorem displayInBaseLink_keeps_dot_products c (x y x' y' : Vector6D)
    (frame : string) (fk : TreeFkSolverPos_recursive) (f : Frame)
    (Hfk : m_forward_kinematics_solver c = Some fk)
    (Hres : JntToCart fk (getPositions (m_forward_dynamics_solver c)) frame
            = Some f)
    (Hrot : orthonormal (M f))
    (Hx : displayInBaseLink c x frame = Some x')
    (Hy : displayInBaseLink c y frame = Some y') :
  dot (linear_part x') (linear_part y') = dot (linear_part x) (linear_part y) /\
  dot (angular_part x') (angular_part y')
  = dot (angular_part x) (angular_part y) /\
  dot (linear_part x') (angular_part y')
  = dot (linear_part x) (angular_part y).
Proof.
  unfold displayInBaseLink, lookup_transform in Hx, Hy.
  rewrite Hfk, Hres in Hx, Hy.
  injection Hx as <-. injection Hy as <-.
  unfold linear_part, angular_part.
  rewrite !Wrench_of_Vector6D_of_Wrench.
  unfold Rotation_mul_Wrench. cbn [force torque].
  rewrite !dot_rotated by exact Hrot. repeat split.
Qed.

(** X14. The round trip in the other order: a 6-vector expressed in a
    resolved frame and then in the base link again is the vector itself,
    when the transpose of the resolved orientation is orthonormal as
    well (with exact arithmetic). *)
Theorem display_roundtrip_from_base c (vector : Vector6D) (frame : string)
    (fk : TreeFkSolverPos_recursive) (f : Frame)
    (Hfk : m_forward_kinematics_solver c = Some fk)
    (Hres : JntToCart fk (getPositions (m_forward_dynamics_solver c)) frame
            = Some f)
    (Hrot : orthonormal (Rotation_Inverse (M f))) :
  exists in_tip,
    displayInTipLink c vector frame = Some in_tip /\
    displayInBaseLink c in_tip frame = Some vector.
Proof.
  unfold displayInBaseLink, displayInTipLink, lookup_transform.
  rewrite Hfk, Hres. eexists. split; [reflexivity|].
  f_equal. rewrite Wrench_of_Vector6D_of_Wrench.
  unfold Rotation_mul_Wrench. cbn [force torque].
  pose proof (fun v => Rotation_Inverse_cancel v Hrot) as Hcancel.
  rewrite Rotation_Inverse_involutive in Hcancel.
  rewrite !Hcancel.
  apply Vector6D_of_Wrench_of_Vector6D.
Qed.

(** X15. The tensor utility keeps symmetry: when the two diagonal blocks
    of the argument are symmetric, the result is a symmetric 6x6 matrix,
    for any matrix that the frame resolves to (with exact arithmetic). *)
Theorem displayInBaseLink_tensor_symmetric c (tensor out : Matrix6D)
    (frame : string)
    (Htl : Matrix3D_transpose (topLeftCorner tensor) = topLeftCorner tensor)
    (Hbr : Matrix3D_transpose (bottomRightCorner tensor)
           = bottomRightCorner tensor)
    (Hout : displayInBaseLink_tensor c tensor frame = Some out) :
  forall i j, (i < 6)%nat -> (j < 6)%nat -> out i j = out j i.
Proof.
  unfold displayInBaseLink_tensor in Hout.
  destruct (m_forward_kinematics_solver c) as [fk|]; [|discriminate].
  injection Hout as <-.
  set (R := Matrix3D_of_Rotation (M (lookup_transform fk c frame))).
  pose proof (Matrix3D_transpose_congruence R (topLeftCorner tensor)) as Ha.
  pose proof (Matrix3D_transpose_congruence R (bottomRightCorner tensor)) as Hb.
  rewrite Htl in Ha. rewrite Hbr in Hb.
  remember (Matrix3D_mul (Matrix3D_mul R (topLeftCorner tensor))
                         (Matrix3D_transpose R)) as A eqn:HA.
  remember (Matrix3D_mul (Matrix3D_mul R (bottomRightCorner tensor))
                         (Matrix3D_transpose R)) as B eqn:HB.
  clear HA HB.
  destruct A as [a00 a01 a02 a10 a11 a12 a20 a21 a22].
  destruct B as [b00 b01 b02 b10 b11 b12 b20 b21 b22].
  unfold Matrix3D_transpose in Ha, Hb. cbn in Ha, Hb.
  injection Ha as Ha1 Ha2 Ha3 Ha4 Ha5 Ha6.
  injection Hb as Hb1 Hb2 Hb3 Hb4 Hb5 Hb6.
  intros i j Hi Hj.
  destruct i as [|[|[|[|[|[|i]]]]]]; try lia;
    destruct j as [|[|[|[|[|[|j]]]]]]; try lia;
    unfold set_bottomRightCorner, set_topLeftCorner, Matrix6D_Zero;
    cbn; congruence.
Qed.

End FrameOutcomes.

(** * The further properties on the planar arm *)

Section Scenarios.
Import Demo Scenario.
Local Open Scope Z_scope.

(** Closed facts about the arm are settled by evaluation. *)
Ltac evaluate := vm_compute; reflexivity.

(** X1 on the arm: [init] clears an [m_paused] that started as [true]. *)
Lemma init_success_state_witness :
  m_paused (fresh_paused PositionJointInterface) = true /\
  m_paused (fst (init (fresh_paused PositionJointInterface) robot nh)) = false /\
  m_already_initialized
    (fst (init (fresh_paused PositionJointInterface) robot nh)) = true.
Proof.
  split; [evaluate|].
  assert (Hfresh : m_already_initialized (fresh_paused PositionJointInterface)
                   = false) by evaluate.
  assert (Hinit : init (fresh_paused PositionJointInterface) robot nh
                  = (fst (init (fresh_paused PositionJointInterface) robot nh),
                     Returned true)) by evaluate.
  destruct (init_success_state _ _ _ Hfresh Hinit) as (Hdone & Hpaused & _).
  split; [exact Hpaused|exact Hdone].
Defined.

(** X2 on the arm: a good [init] after the failed one leaves three handles
    for two joint names. *)
Lemma init_success_handles_witness :
  m_joint_handles (after_failure PositionJointInterface)
    = [mkJointHandle "joint1"] /\
  m_joint_handles (fst (init (after_failure PositionJointInterface) robot nh))
    = [mkJointHandle "joint1"; mkJointHandle "joint1"; mkJointHandle "joint2"] /\
  m_joint_names (fst (init (after_failure PositionJointInterface) robot nh))
    = ["joint1"; "joint2"]%string.
Proof.
  split; [evaluate|].
  assert (Hfresh : m_already_initialized (after_failure PositionJointInterface)
                   = false) by evaluate.
  assert (Hinit : init (after_failure PositionJointInterface) robot nh
                  = (fst (init (after_failure PositionJointInterface) robot nh),
                     Returned true)) by evaluate.
  destruct (init_success_handles _ _ _ Hfresh Hinit) as (Hhandles & _).
  rewrite Hhandles. split; evaluate.
Defined.

(** X3 on the arm: both joints have the limits [-2] and [2]. *)
Lemma init_success_limits_witness :
  exists us ls,
    sim_upper (m_forward_dynamics_solver
                 (fst (init (fresh PositionJointInterface) robot nh))) = us /\
    sim_lower (m_forward_dynamics_solver
                 (fst (init (fresh PositionJointInterface) robot nh))) = ls /\
    List.length us = 2%nat /\ List.length ls = 2%nat.
Proof.
  assert (Hfresh : m_already_initialized (fresh PositionJointInterface)
                   = false) by evaluate.
  assert (Hinit : init (fresh PositionJointInterface) robot nh
                  = (fst (init (fresh PositionJointInterface) robot nh),
                     Returned true)) by evaluate.
  destruct (init_success_limits _ _ _ Hfresh Hinit)
    as (d & model & tree & chain & us & ls & _ & _ & _ & _ & Hfds & _ &
        Hus & Hls & _).
  exists us, ls. rewrite Hfds. repeat split; assumption.
Defined.

(** X4 on the arm without [joint2]: the handle of [joint1] stays. *)
Lemma init_handle_failure_keeps_prefix_witness :
  snd (init (fresh PositionJointInterface) robot_without_joint2 nh)
    = Thrown "Could not find resource 'joint2'" /\
  m_joint_handles
    (fst (init (fresh PositionJointInterface) robot_without_joint2 nh))
    = [mkJointHandle "joint1"].
Proof.
  destruct (@init_handle_failure_keeps_prefix Z_scalar collaborators _
              (fresh PositionJointInterface) robot_without_joint2 nh
              "arm" "base_link" "tool0" arm arm
              ["joint1"; "joint2"]%string ["joint1"]%string "joint2" []
              [2; 2] [-2; -2])
    as (Hout & Hhandles & _);
    [evaluate .. | repeat constructor; discriminate | evaluate | ].
  split; [exact Hout|exact Hhandles].
Defined.

(** X5 on the wrist: the continuous joint [spin] makes [init] dereference
    a null pointer. *)
Lemma init_first_joint_without_limits_witness :
  snd (@init Z_scalar wrist_collaborators _ wrist_fresh robot wrist_nh)
    = Undefined.
Proof.
  destruct (@init_first_joint_without_limits Z_scalar wrist_collaborators _
              wrist_fresh robot wrist_nh
              "wrist" "base_link" "tool0" wrist wrist
              ["joint1"; "spin"]%string ["joint1"]%string "spin" [])
    as (_ & Hnull & _); [evaluate .. | | ].
  - repeat constructor. exists (joint "joint1"). eexists. split; reflexivity.
  - apply (Hnull (mkUrdfJoint "spin" None)); evaluate.
Defined.

(** X7 on the arm: the first tick writes the positions it has just
    computed, [2] and [1]. *)
Lemma tick_emits_fresh_motion_witness :
  m_paused (running PositionJointInterface) = false /\
  exists written,
    snd (tick (running PositionJointInterface) robot push period)
      = Some (mkRobotHW (hw_joints robot) (hw_commands robot ++ written)) /\
    List.length written = 2%nat.
Proof.
  assert (Hrun : m_paused (running PositionJointInterface) = false)
    by evaluate.
  split; [exact Hrun|].
  destruct (tick_emits_fresh_motion (running PositionJointInterface) robot
              push period Hrun) as (written & Htick & Hlen & _).
  - vm_compute. lia.
  - exists written. rewrite Htick. split; [reflexivity|].
    rewrite Hlen. evaluate.
Defined.

(** X8 on the arm. *)
Lemma pause_ticks_resume_witness :
  m_paused (running VelocityJointInterface) = false /\
  run (running VelocityJointInterface) robot
      (CallPause now :: two_ticks ++ [CallResume now])
    = Some (running VelocityJointInterface, robot).
Proof.
  assert (Hrun : m_paused (running VelocityJointInterface) = false)
    by evaluate.
  split; [exact Hrun|].
  apply (pause_ticks_resume (running VelocityJointInterface) robot now now
           two_ticks Hrun).
  evaluate.
Defined.

(** X9 on the arm: restarted while paused, it still writes nothing. *)
Lemma run_paused_writes_nothing_witness :
  m_paused (paused PositionJointInterface) = true /\
  exists c',
    run (paused PositionJointInterface) robot restart = Some (c', robot) /\
    m_paused c' = true.
Proof.
  assert (Hpaused : m_paused (paused PositionJointInterface) = true)
    by evaluate.
  split; [exact Hpaused|].
  apply (run_paused_writes_nothing (paused PositionJointInterface) robot
           restart Hpaused).
  evaluate.
Defined.

(** X10 on the arm: the handles after a second [init] with another
    parameter server, a restart and ticks. *)
Lemma run_configuration_frozen_witness :
  m_already_initialized (running PositionJointInterface) = true /\
  exists c' hw',
    run (running PositionJointInterface) robot
        (CallInit nh_without_joints :: restart) = Some (c', hw') /\
    m_joint_handles c' = [mkJointHandle "joint1"; mkJointHandle "joint2"].
Proof.
  assert (Hdone : m_already_initialized (running PositionJointInterface)
                  = true) by evaluate.
  split; [exact Hdone|].
  assert (Hdefined :
            match run (running PositionJointInterface) robot
                      (CallInit nh_without_joints :: restart) with
            | Some _ => true
            | None => false
            end = true) by evaluate.
  revert Hdefined.
  destruct (run (running PositionJointInterface) robot
                (CallInit nh_without_joints :: restart))
    as [[c' hw']|] eqn:Hrun; [intros _|discriminate].
  exists c', hw'. split; [reflexivity|].
  destruct (run_configuration_frozen _ _ _ Hdone Hrun) as (_ & Hhandles & _).
  rewrite Hhandles. evaluate.
Defined.

(** X11 on the arm: after the session the utilities are defined. *)
Lemma run_frame_utilities_defined_witness :
  exists c' hw',
    run (CartesianControllerBase_new PositionJointInterface false zero6)
        robot session = Some (c', hw') /\
    m_already_initialized c' = true /\
    displayInBaseLink c' push "joint2" <> None.
Proof.
  assert (Hreached :
            match run (CartesianControllerBase_new PositionJointInterface
                         false zero6) robot session with
            | Some (c', _) => m_already_initialized c'
            | None => false
            end = true) by evaluate.
  revert Hreached.
  destruct (run (CartesianControllerBase_new PositionJointInterface
                   false zero6) robot session)
    as [[c' hw']|] eqn:Hrun; [intros Hdone|discriminate].
  exists c', hw'. split; [reflexivity|]. split; [exact Hdone|].
  destruct (run_frame_utilities_defined _ _ _ _ Hrun push tensor "joint2")
    as [Hdefined _].
  apply (Hdefined Hdone).
Defined.

(** X12 on the arm: [nowhere] is not a frame of the arm. *)
Lemma unresolved_frame_is_identity_witness :
  displayInBaseLink (running PositionJointInterface) push "nowhere" = Some push /\
  displayInTipLink (running PositionJointInterface) push "nowhere" = Some push.
Proof.
  destruct (unresolved_frame_is_identity (running PositionJointInterface)
              push tensor "nowhere" (fk := ["joint1"; "joint2"]%string))
    as (_ & Hbase & Htip & _); [evaluate .. | ].
  split; [exact Hbase|exact Htip].
Defined.

(** X13 on the arm, turned by one quarter turn. *)
Lemma displayInBaseLink_keeps_dot_products_witness :
  orthonormal (quarter_turns 1) /\
  exists x',
    displayInBaseLink (running PositionJointInterface) push "joint2"
      = Some x' /\
    dot (linear_part x') (linear_part x') = 14.
Proof.
  assert (Hrot : orthonormal (quarter_turns 1)) by evaluate.
  split; [exact Hrot|].
  assert (Hdefined : exists x',
            displayInBaseLink (running PositionJointInterface) push "joint2"
            = Some x').
  { vm_compute. eexists. reflexivity. }
  destruct Hdefined as (x' & Hx). exists x'. split; [exact Hx|].
  destruct (displayInBaseLink_keeps_dot_products
              (running PositionJointInterface) push push "joint2"
              (fk := ["joint1"; "joint2"]%string)
              (f := @mkFrame Z_scalar (quarter_turns 1) (@mkVector Z_scalar 0 0 0))
              (x' := x') (y' := x'))
    as (Hlinear & _);
    [evaluate | evaluate | exact Hrot | exact Hx | exact Hx | ].
  rewrite Hlinear. evaluate.
Defined.

(** X14 on the arm. *)
Lemma display_roundtrip_from_base_witness :
  orthonormal (Rotation_Inverse (quarter_turns 1)) /\
  exists in_tip,
    displayInTipLink (running PositionJointInterface) push "joint2"
      = Some in_tip /\
    displayInBaseLink (running PositionJointInterface) in_tip "joint2"
      = Some push.
Proof.
  split; [evaluate|].
  apply (display_roundtrip_from_base (running PositionJointInterface) push
           "joint2" (fk := ["joint1"; "joint2"]%string)
           (f := @mkFrame Z_scalar (quarter_turns 1) (@mkVector Z_scalar 0 0 0)));
    evaluate.
Defined.

(** X15 on the arm. *)
Lemma displayInBaseLink_tensor_symmetric_witness :
  Matrix3D_transpose (topLeftCorner symmetric_tensor)
    = topLeftCorner symmetric_tensor /\
  exists out,
    displayInBaseLink_tensor (running PositionJointInterface) symmetric_tensor
      "joint2" = Some out /\
    out 0%nat 1%nat = out 1%nat 0%nat /\ out 3%nat 5%nat = out 5%nat 3%nat.
Proof.
  assert (Htl : Matrix3D_transpose (topLeftCorner symmetric_tensor)
                = topLeftCorner symmetric_tensor) by evaluate.
  assert (Hbr : Matrix3D_transpose (bottomRightCorner symmetric_tensor)
                = bottomRightCorner symmetric_tensor) by evaluate.
  split; [exact Htl|].
  assert (Hdefined : exists out,
            displayInBaseLink_tensor (running PositionJointInterface)
              symmetric_tensor "joint2" = Some out).
  { unfold displayInBaseLink_tensor.
    replace (m_forward_kinematics_solver (running PositionJointInterface))
      with (Some ["joint1"; "joint2"]%string) by evaluate.
    eexists. reflexivity. }
  destruct Hdefined as (out & Hout). exists out. split; [exact Hout|].
  pose proof (displayInBaseLink_tensor_symmetric
                (running PositionJointInterface) "joint2" Htl Hbr Hout)
    as Hsym.
  split; apply Hsym; lia.
Defined.

End Scenarios.

(** * The write loop before the first computation *)

Section BeforeTheFirstTick.
Import Demo.

(** C9, counterexample: after [init] and [starting] the controller is not
    paused and holds two joint handles, while its simulated joint motion
    is still empty; the write indexes [positions] beyond its end. *)
Lemma write_before_compute_out_of_range :
  m_paused (running PositionJointInterface) = false /\
  List.length (m_joint_handles (running PositionJointInterface)) = 2%nat /\
  positions (m_simulated_joint_motion (running PositionJointInterface)) = [] /\
  writeJointControlCmds (running PositionJointInterface) robot = None.
Proof. repeat split; vm_compute; reflexivity. Qed.

End BeforeTheFirstTick.

(** * The frame utilities in binary64 *)

Section OnBinary64.
Import Binary64.


(** In binary64 the round trip of a moderate vector is close, not exact. *)
Lemma display_roundtrip_binary64_rounds :
  match @displayInBaseLink binary64 collaborators _ turned small "joint1" with
  | Some in_base =>
    @displayInTipLink binary64 collaborators _ turned in_base "joint1"
  | None => None
  end
  = Some (@mkVector6D binary64 1%float 0x1.0000000000001p+1%float 3%float
            4%float 5%float 6%float).
Proof. vm_compute. reflexivity. Qed.

(** In binary64 the identity frame of an unresolved name does not give an
    infinite vector back: [0 * infinity] is NaN. *)
Lemma unresolved_frame_binary64_nan :
  @displayInBaseLink binary64 collaborators _ turned unbounded "nowhere"
  = Some (@mkVector6D binary64 infinity nan nan 4%float 5%float 6%float).
Proof. vm_compute. reflexivity. Qed.

End OnBinary64.
